(** * AISDLC2.0: the pipeline generator and the QR formatting service

    A shallow embedding of the parts of [generate_workflow.py] and
    [backend/main.py] that the specification makes claims about, with
    the proofs settling those claims.

    Conventions of the embedding.
    - Text is a Rocq [string] read as ASCII text; on ASCII Python's
      [\d] is [0-9], the white space of [str.strip] and [\s] is the
      set given by [is_space], and [int] skips the set [is_cspace].
    - Python integers are [Z]; converting between [int] and [str]
      fails beyond the 4300 digits that the interpreter allows as it is
      started, so [int] of a text and [str] of an integer are partial.
    - A Python [dict] with string keys is a [gmap string _]; values are
      the JSON-like [pyval].
    - A call that can raise returns a [result]; the file system and the
      advisory service are seen through explicit views. *)

From Stdlib Require Import ZArith QArith String Ascii List Lia.
From stdpp Require Import base option list gmap strings.

Local Open Scope Z_scope.

(** ** Python built-ins used by the sources *)

Module Py.

Definition code (c : ascii) : Z := Z.of_N (N_of_ascii c).

Definition in_range (lo hi : Z) (c : ascii) : bool :=
  (lo <=? code c) && (code c <=? hi).

(** [str.isspace] on ASCII: tab, LF, VT, FF, CR, the four separators
    FS GS RS US, and the space. *)
Definition is_space (c : ascii) : bool :=
  in_range 9 13 c || in_range 28 31 c || (code c =? 32).

(** The white space [int] skips around an ASCII literal: the C
    [isspace] set, without the four separators. *)
Definition is_cspace (c : ascii) : bool :=
  in_range 9 13 c || (code c =? 32).

Definition is_digit (c : ascii) : bool := in_range 48 57 c.
Definition is_lower (c : ascii) : bool := in_range 97 122 c.
Definition is_upper (c : ascii) : bool := in_range 65 90 c.
Definition is_alpha (c : ascii) : bool := is_lower c || is_upper c.
Definition is_alnum (c : ascii) : bool := is_alpha c || is_digit c.

Definition eqc (a b : ascii) : bool := bool_decide (a = b).

Definition digit_val (c : ascii) : Z := code c - 48.
Definition digit_char (d : Z) : ascii := ascii_of_N (Z.to_N (48 + d)).

Definition upper_char (c : ascii) : ascii :=
  if is_lower c then ascii_of_N (Z.to_N (code c - 32)) else c.
Definition lower_char (c : ascii) : ascii :=
  if is_upper c then ascii_of_N (Z.to_N (code c + 32)) else c.

Fixpoint map_chars (f : ascii -> ascii) (s : string) : string :=
  match s with
  | EmptyString => EmptyString
  | String c r => String (f c) (map_chars f r)
  end.

(** [s.upper()] and [s.lower()] *)
Definition upper : string -> string := map_chars upper_char.
Definition lower : string -> string := map_chars lower_char.

Fixpoint forallb_str (p : ascii -> bool) (s : string) : bool :=
  match s with
  | EmptyString => true
  | String c r => p c && forallb_str p r
  end.

Fixpoint filter_str (p : ascii -> bool) (s : string) : string :=
  match s with
  | EmptyString => EmptyString
  | String c r => if p c then String c (filter_str p r) else filter_str p r
  end.

Definition len (s : string) : Z := Z.of_nat (String.length s).

Definition is_empty (s : string) : bool :=
  match s with EmptyString => true | _ => false end.

(** Dropping the characters of a class from both ends *)
Fixpoint lstrip_by (p : ascii -> bool) (s : string) : string :=
  match s with
  | EmptyString => EmptyString
  | String c r => if p c then lstrip_by p r else s
  end.

Fixpoint rstrip_by (p : ascii -> bool) (s : string) : string :=
  match s with
  | EmptyString => EmptyString
  | String c r =>
      let t := rstrip_by p r in
      if p c && is_empty t then EmptyString else String c t
  end.

Definition strip_by (p : ascii -> bool) (s : string) : string :=
  rstrip_by p (lstrip_by p s).

(** [s.strip()] *)
Definition strip (s : string) : string := strip_by is_space s.

(** [s.startswith(p)] and [s.endswith(p)] *)
Fixpoint startswith (p s : string) : bool :=
  match p, s with
  | EmptyString, _ => true
  | String a p', String b s' => eqc a b && startswith p' s'
  | String _ _, EmptyString => false
  end.

Fixpoint endswith (p s : string) : bool :=
  match s with
  | EmptyString => is_empty p
  | String _ r => bool_decide (s = p) || endswith p r
  end.

(** [p in s] for strings *)
Fixpoint contains (p s : string) : bool :=
  startswith p s ||
  match s with
  | EmptyString => false
  | String _ r => contains p r
  end.

(** [s.split(sep)] for a one-character separator: every occurrence
    cuts, so the result is never empty. *)
Fixpoint split (sep : ascii) (s : string) : list string :=
  match s with
  | EmptyString => [EmptyString]
  | String c r =>
      if eqc c sep then EmptyString :: split sep r
      else match split sep r with
           | p :: ps => String c p :: ps
           | [] => [String c EmptyString]
           end
  end.

(** [s.split(sep, 1)]: cut at the first occurrence only. *)
Fixpoint split1 (sep : ascii) (s : string) : list string :=
  match s with
  | EmptyString => [EmptyString]
  | String c r =>
      if eqc c sep then [EmptyString; r]
      else match split1 sep r with
           | p :: ps => String c p :: ps
           | [] => [String c EmptyString]
           end
  end.

(** [sep.join(parts)] *)
Fixpoint join (sep : string) (parts : list string) : string :=
  match parts with
  | [] => EmptyString
  | [p] => p
  | p :: ps => p +:+ sep +:+ join sep ps
  end.

(** The digits of an [int] literal as [int(s)] reads them: decimal
    digits, where single underscores may stand between two digits.
    [after_digit] tells whether the previous character was a digit. *)
Fixpoint int_digits (s : string) (acc : Z) (after_digit : bool) : option Z :=
  match s with
  | EmptyString => if after_digit then Some acc else None
  | String c r =>
      if is_digit c then int_digits r (10 * acc + digit_val c) true
      else if eqc c "_" && after_digit then int_digits r acc false
      else None
  end.

(** The interpreter of the program, CPython 3.11, refuses to convert
    between [str] and [int] beyond [sys.get_int_max_str_digits()]
    decimal digits, 4300 as the shebang line starts the interpreter;
    both conversions raise [ValueError] there. *)
Definition max_str_digits : Z := 4300.

(** The number of decimal digits in a text; signs, underscores and
    white space do not count. *)
Fixpoint count_digits (s : string) : Z :=
  match s with
  | EmptyString => 0
  | String c r => (if is_digit c then 1 else 0) + count_digits r
  end.

(** [int(s)] for a string argument: surrounding white space is dropped,
    one sign is allowed, and a literal of more than [max_str_digits]
    digits, leading zeros counted, is refused.  [None] stands for
    [ValueError]. *)
Definition int_of_str (s : string) : option Z :=
  match strip_by is_cspace s with
  | EmptyString => None
  | String c r =>
      let literal := if eqc c "-" || eqc c "+" then r else String c r in
      if max_str_digits <? count_digits literal then None
      else if eqc c "-" then Z.opp <$> int_digits literal 0 false
      else int_digits literal 0 false
  end.

(** The decimal digits of a non-negative integer, most significant
    first; [fuel] bounds their number. *)
Fixpoint nat_digits (fuel : nat) (n : Z) : string :=
  match fuel with
  | O => EmptyString
  | S f =>
      (if n <? 10 then EmptyString else nat_digits f (n / 10))
        +:+ String (digit_char (n mod 10)) EmptyString
  end.

(** The decimal numeral of an integer *)
Definition decimal (n : Z) : string :=
  if n <? 0 then String "-" (nat_digits (S (Z.to_nat (Z.log2 (- n)))) (- n))
  else nat_digits (S (Z.to_nat (Z.log2 n))) n.

(** [str(n)] for an integer, also as an f-string formats it: the
    numeral, unless it has more than [max_str_digits] digits.  [None]
    stands for [ValueError]. *)
Definition str_of_int (n : Z) : option string :=
  let numeral := decimal n in
  if max_str_digits <? count_digits numeral then None else Some numeral.

(** The message of the [ValueError] that [str] raises. *)
Definition str_limit_message : string :=
  "Exceeds the limit (4300 digits) for integer string conversion; use sys.set_int_max_str_digits() to increase the limit".

End Py.

(** ** [PipelineGenerator._increment_version] *)

(** The [VERSION] file is seen as [None] when it does not exist and as
    its text otherwise.  The [try] block indexes [parts[2]] first, so a
    missing third part, a third part that [int] rejects and a bumped
    number that the f-string cannot print all end in the bare
    [except]. *)
Definition bumped (current_version : string) : option string :=
  let parts := Py.split "." current_version in
  p2 ← parts !! 2%nat;
  n ← Py.int_of_str p2;
  let patch := n + 1 in
  p0 ← parts !! 0%nat;
  p1 ← parts !! 1%nat;
  patch ← Py.str_of_int patch;
  Some (p0 +:+ "." +:+ p1 +:+ "." +:+ patch).

Definition _increment_version (version_file : option string) : option string :=
  let current_version :=
    match version_file with
    | Some text => Py.strip text
    | None => "0.1.0"
    end in
  let new_version :=
    match bumped current_version with
    | Some v => v
    | None => "0.1.1"
    end in
  Some new_version.

(** ** Values, exceptions and results *)

(** The values held by the dictionaries of the program: what [json]
    and the analyzer produce.  A finite [float] is the rational it
    denotes. *)
#[warnings="-register-all"] Inductive pyval : Type :=
  | PyNone
  | PyBool (b : bool)
  | PyInt (n : Z)
  | PyFloat (q : Q)
  | PyStr (s : string)
  | PyList (l : list pyval)
  | PyDict (d : gmap string pyval).

(** Truth value of an object, as [if v:] tests it. *)
Definition truthy (v : pyval) : bool :=
  match v with
  | PyNone => false
  | PyBool b => b
  | PyInt n => negb (n =? 0)
  | PyFloat q => negb (Qnum q =? 0)
  | PyStr s => negb (Py.is_empty s)
  | PyList l => match l with [] => false | _ => true end
  | PyDict d => match map_to_list d with [] => false | _ => true end
  end.

Inductive exn : Type :=
  | Exception (msg : string)
  | KeyError (key : string)
  | AttributeError
  | TypeError
  | ValueError
  | HTTPException (status_code : Z) (detail : string).

Inductive result (A : Type) : Type :=
  | Ok (a : A)
  | Raise (e : exn).
Arguments Ok {A} a.
Arguments Raise {A} e.

#[global] Instance result_ret : MRet result := fun A a => Ok a.
#[global] Instance result_fmap : FMap result := fun A B f m =>
  match m with
  | Ok a => Ok (f a)
  | Raise e => Raise e
  end.
#[global] Instance result_bind : MBind result := fun A B k m =>
  match m with
  | Ok a => k a
  | Raise e => Raise e
  end.

(** [d.get(key, default)] *)
Definition dict_get (d : gmap string pyval) (key : string) (dflt : pyval) : pyval :=
  default dflt (d !! key).

(** [d[key]] *)
Definition getitem (d : gmap string pyval) (key : string) : result pyval :=
  match d !! key with
  | Some v => Ok v
  | None => Raise (KeyError key)
  end.

(** The receiver of a [.get] call has to be a [dict]. *)
Definition as_dict (v : pyval) : result (gmap string pyval) :=
  match v with
  | PyDict d => Ok d
  | _ => Raise AttributeError
  end.

(** [int(v)] inside a [try] that catches [ValueError] and [TypeError]:
    [None] stands for either. *)
Definition int_of (v : pyval) : option Z :=
  match v with
  | PyInt n => Some n
  | PyBool b => Some (if b then 1 else 0)
  | PyFloat q => Some (Z.quot (Qnum q) (Z.pos (Qden q)))
  | PyStr s => Py.int_of_str s
  | PyNone | PyList _ | PyDict _ => None
  end.

(** ** [PipelineGenerator._load_config] and [_default_config] *)

(** A value of the override configuration: the loader stores a string
    or, for a bracketed value, a list of strings. *)
Inductive cfgval : Type :=
  | CStr (s : string)
  | CList (l : list string).

Definition to_py (v : cfgval) : pyval :=
  match v with
  | CStr s => PyStr s
  | CList l => PyList (PyStr <$> l)
  end.

(** [self.config.get(key, default)] *)
Definition cfg_get (config : gmap string cfgval) (key : string) (dflt : pyval) : pyval :=
  match config !! key with
  | Some v => to_py v
  | None => dflt
  end.

(** The override file as the loader sees it: missing, failing while it
    is opened or read, or yielding its lines. *)
Inductive config_file : Type :=
  | NoFile
  | Unreadable
  | Lines (lines : list string).

Definition _default_config : gmap string cfgval :=
  <["pipeline_name" := CStr "auto-generated-pipeline"]>
  (<["environment" := CStr "production"]>
  (<["target" := CStr "aws_ec2"]>
  (<["instance_type" := CStr "t2.micro"]>
  (<["deploy_using" := CStr "docker-compose"]>
  (<["labels" := CList ["ai-generated"; "demo"]]>
  (<["email_notification" := CStr "true"]>
  (<["email_recipient" := CStr "demo@example.com"]> ∅))))))).

Fixpoint drop_last (s : string) : string :=
  match s with
  | EmptyString => EmptyString
  | String c r => if Py.is_empty r then EmptyString else String c (drop_last r)
  end.

(** [value[1:-1]] *)
Definition slice_1_m1 (s : string) : string :=
  match s with
  | EmptyString => EmptyString
  | String _ r => drop_last r
  end.

Definition config_value (value : string) : cfgval :=
  if Py.startswith "[" value && Py.endswith "]" value
  then CList (Py.strip <$> Py.split "," (slice_1_m1 value))
  else CStr value.

(** The body of the [for line in f] loop. *)
Definition config_line (config : gmap string cfgval) (line : string)
  : gmap string cfgval :=
  let line := Py.strip line in
  if negb (Py.is_empty line) && negb (Py.startswith "#" line) then
    if Py.contains ":" line then
      match Py.split1 ":" line with
      | [key; value] => <[Py.strip key := config_value (Py.strip value)]> config
      | _ => config
      end
    else config
  else config.

Definition _load_config (f : config_file) : gmap string cfgval :=
  match f with
  | NoFile => _default_config
  | Unreadable => _default_config
  | Lines lines => fold_left config_line lines ∅
  end.

(** ** The Terraform bundle *)

(** [s.replace(old, new)] for a non-empty [old]: occurrences are
    replaced from the left and do not overlap; [skip] counts the
    characters of a replaced occurrence still to be passed over. *)
Fixpoint replace_go (old new s : string) (skip : nat) : string :=
  match s with
  | EmptyString => EmptyString
  | String c r =>
      match skip with
      | S k => replace_go old new r k
      | O =>
          if Py.startswith old s
          then new +:+ replace_go old new r (String.length old - 1)
          else String c (replace_go old new r 0)
      end
  end.

Definition replace (old new s : string) : string := replace_go old new s 0.

(** [s.title()]: a letter is upper-cased when the character before it
    is not a letter and lower-cased otherwise. *)
Fixpoint title_go (s : string) (previous_is_cased : bool) : string :=
  match s with
  | EmptyString => EmptyString
  | String c r =>
      if Py.is_lower c then
        String (if previous_is_cased then c else Py.upper_char c) (title_go r true)
      else if Py.is_upper c then
        String (if previous_is_cased then Py.lower_char c else c) (title_go r true)
      else String c (title_go r false)
  end.

Definition title (s : string) : string := title_go s false.

(** A method of [str] called on a configuration value: a list has no
    such method. *)
Definition str_method (v : pyval) : result string :=
  match v with
  | PyStr s => Ok s
  | _ => Raise AttributeError
  end.

Fixpoint chars (s : string) : list string :=
  match s with
  | EmptyString => []
  | String c r => String c EmptyString :: chars r
  end.

(** [','.join(self.config.get('labels', ['ai-generated']))]: joining a
    string joins its characters. *)
Definition joined_labels (config : gmap string cfgval) : string :=
  match config !! "labels" with
  | Some (CList l) => Py.join "," l
  | Some (CStr s) => Py.join "," (chars s)
  | None => Py.join "," ["ai-generated"]
  end.

(** The generated files are fixed texts with substitution points; a
    document is the tuple of the values substituted, in the order of
    the template.  A [pyval] slot is printed by the f-string as it
    is. *)
Record variables_tf : Type := {
  var_environment : pyval;
  var_ami_id : string;
  var_ami_comment : string;
  var_instance_type : pyval;
  var_project_name : string;
  var_tags_project : string;
  var_frontend_port : pyval;
  var_backend_port : pyval;
  var_deploy_method : pyval;
  var_target_platform : pyval
}.

Record tfvars : Type := {
  tfv_environment : pyval;
  tfv_instance_type : pyval;
  tfv_ami_id : string;
  tfv_project_name : string;
  tfv_tags_project : string;
  tfv_labels : string;
  tfv_frontend_port : pyval;
  tfv_backend_port : pyval;
  tfv_deploy_method : pyval;
  tfv_target_platform : pyval
}.

(** What a file of the [terraform] directory holds: a text that was
    there before the run, or one of the documents the generator
    writes. *)
Inductive artifact : Type :=
  | Kept (text : string)
  | MainTf
  | UserDataSh
  | VariablesTf (doc : variables_tf)
  | OutputsTf
  | TerraformTfvars (doc : tfvars)
  | TerraformTfvarsExample (doc : tfvars).

(** Lines 904-913 of [_create_terraform_main]: the two ports it
    resolves.  The default argument of [config.get] is evaluated
    first, so a record without the facet raises. *)
Definition resolved_ports (config : gmap string cfgval)
    (analysis : gmap string pyval) : result (Z * Z) :=
  backend ← getitem analysis "backend";
  backend ← as_dict backend;
  let backend_port := cfg_get config "backend_port" (dict_get backend "port" (PyInt 8000)) in
  frontend ← getitem analysis "frontend";
  frontend ← as_dict frontend;
  let frontend_port := cfg_get config "frontend_port" (dict_get frontend "port" (PyInt 3000)) in
  match int_of backend_port, int_of frontend_port with
  | Some b, Some f => Ok (b, f)
  | _, _ => Ok (8000, 3000)
  end.

(** The template of [main.tf] refers to the ports only as
    [var.backend_port] and [var.frontend_port], and [user_data.sh] is
    not an f-string: neither text depends on the resolved ports. *)
Definition _create_terraform_main (config : gmap string cfgval)
    (analysis : gmap string pyval) (dir : gmap string artifact)
  : result (gmap string artifact) :=
  _ ← resolved_ports config analysis;
  Ok (<["user_data.sh" := UserDataSh]> (<["main.tf" := MainTf]> dir)).

Definition variables_doc (config : gmap string cfgval) : result variables_tf :=
  let environment := cfg_get config "environment" (PyStr "dev") in
  let instance_type := cfg_get config "instance_type" (PyStr "t3.micro") in
  name ← str_method (cfg_get config "pipeline_name" (PyStr "qr-generator"));
  let project_name := replace "-auto-pipeline" "" name in
  ami_config ← str_method (cfg_get config "ami" (PyStr "latest-ubuntu"));
  let '(default_ami, ami_comment) :=
    if Py.contains "ubuntu" (Py.lower ami_config)
    then ("ami-0c7217cdde317cfec", "Ubuntu 22.04 LTS")
    else ("ami-0c02fb55956c7d316",
          "Amazon Linux 2 AMI (HVM) - Kernel 5.10, SSD Volume Type") in
  Ok {| var_environment := environment;
        var_ami_id := default_ami;
        var_ami_comment := ami_comment;
        var_instance_type := instance_type;
        var_project_name := project_name;
        var_tags_project := title project_name;
        var_frontend_port := cfg_get config "frontend_port" (PyInt 3000);
        var_backend_port := cfg_get config "backend_port" (PyInt 8000);
        var_deploy_method := cfg_get config "deploy_using" (PyStr "docker-compose");
        var_target_platform := cfg_get config "target" (PyStr "aws_ec2") |}.

Definition _create_terraform_variables (config : gmap string cfgval)
    (dir : gmap string artifact) : result (gmap string artifact) :=
  doc ← variables_doc config;
  Ok (<["variables.tf" := VariablesTf doc]> dir).

Definition _create_terraform_outputs (dir : gmap string artifact)
  : result (gmap string artifact) :=
  Ok (<["outputs.tf" := OutputsTf]> dir).

Definition tfvars_doc (config : gmap string cfgval) : result tfvars :=
  let environment := cfg_get config "environment" (PyStr "dev") in
  let instance_type := cfg_get config "instance_type" (PyStr "t3.micro") in
  name ← str_method (cfg_get config "pipeline_name" (PyStr "qr-generator"));
  let project_name := replace "-auto-pipeline" "" name in
  ami_config ← str_method (cfg_get config "ami" (PyStr "latest-ubuntu"));
  let ami_lower := Py.lower ami_config in
  let ami_id :=
    if Py.contains "ubuntu" ami_lower then "ami-0c7217cdde317cfec"
    else if Py.contains "amazon" ami_lower || Py.contains "linux" ami_lower
    then "ami-0c02fb55956c7d316"
    else "ami-0c7217cdde317cfec" in
  Ok {| tfv_environment := environment;
        tfv_instance_type := instance_type;
        tfv_ami_id := ami_id;
        tfv_project_name := project_name;
        tfv_tags_project := title (replace "-" " " project_name);
        tfv_labels := joined_labels config;
        tfv_frontend_port := cfg_get config "frontend_port" (PyStr "3000");
        tfv_backend_port := cfg_get config "backend_port" (PyStr "8000");
        tfv_deploy_method := cfg_get config "deploy_using" (PyStr "docker-compose");
        tfv_target_platform := cfg_get config "target" (PyStr "aws_ec2") |}.

Definition _create_terraform_tfvars (config : gmap string cfgval)
    (dir : gmap string artifact) : result (gmap string artifact) :=
  doc ← tfvars_doc config;
  Ok (<["terraform.tfvars.example" := TerraformTfvarsExample doc]>
      (<["terraform.tfvars" := TerraformTfvars doc]> dir)).

(** The [terraform] directory is [None] when it does not exist.  The
    outcome is the directory after the call and the exception that
    ended it, if any: a failing step leaves the files of the steps
    before it in place. *)
Definition _ensure_terraform_infrastructure (config : gmap string cfgval)
    (analysis : gmap string pyval) (terraform : option (gmap string artifact))
  : option (gmap string artifact) * option exn :=
  let file_exists name := bool_decide (is_Some (terraform ≫= (.!! name))) in
  let main_tf_exists := file_exists "main.tf" in
  let variables_tf_exists := file_exists "variables.tf" in
  let outputs_tf_exists := file_exists "outputs.tf" in
  if main_tf_exists && variables_tf_exists && outputs_tf_exists
  then (terraform, None)
  else
    let dir0 := default ∅ terraform in
    match _create_terraform_main config analysis dir0 with
    | Raise e => (Some dir0, Some e)
    | Ok dir1 =>
    match _create_terraform_variables config dir1 with
    | Raise e => (Some dir1, Some e)
    | Ok dir2 =>
    match _create_terraform_outputs dir2 with
    | Raise e => (Some dir2, Some e)
    | Ok dir3 =>
    match _create_terraform_tfvars config dir3 with
    | Raise e => (Some dir3, Some e)
    | Ok dir4 => (Some dir4, None)
    end end end end.

(** ** [CodeAnalyzer] *)

(** A source file as [_detect_port_from_files] sees it: reading it
    raises, or the five patterns are tried in order and the first one
    found gives its captured number. *)
Inductive scanned : Type :=
  | ScanFails
  | Scan (port : option Z).

Fixpoint _detect_port_from_files (files : list scanned) (dflt : Z) : Z :=
  match files with
  | [] => dflt
  | Scan (Some port) :: _ => port
  | _ :: rest => _detect_port_from_files rest dflt
  end.

(** [frontend/package.json]: missing, raising in [open] or
    [json.load], or loaded as a JSON value. *)
Inductive package_json : Type :=
  | PkgMissing
  | PkgUnreadable
  | PkgData (package_data : pyval).

Record frontend_tree : Type := {
  frontend_exists : bool;
  frontend_path : string;
  frontend_package_json : package_json;
  frontend_index_html : bool;
  frontend_js_files : list scanned
}.

Record backend_tree : Type := {
  backend_exists : bool;
  backend_path : string;
  backend_requirements_txt : option string;
  backend_main_py : option string;
  backend_py_files : list scanned
}.

Record terraform_tree : Type := {
  terraform_exists : bool;
  terraform_path : string;
  terraform_tf_files : list string
}.

Record docker_tree : Type := {
  compose_exists : bool;
  dockerfiles : list string
}.

(** The two [git] calls give their standard output, or raise. *)
Record git_tree : Type := {
  git_exists : bool;
  git_branch_stdout : option string;
  git_remote_stdout : option string
}.

Record project_tree : Type := {
  tree_frontend : frontend_tree;
  tree_backend : backend_tree;
  tree_terraform : terraform_tree;
  tree_docker : docker_tree;
  tree_git : git_tree
}.

Definition dquote : string := String (ascii_of_N 34) EmptyString.

(** The command [echo] followed by [msg] between double quotes *)
Definition echo (msg : string) : string := "echo " +:+ dquote +:+ msg +:+ dquote.

Definition _analyze_frontend (t : frontend_tree) : gmap string pyval :=
  if negb (frontend_exists t) then {["exists" := PyBool false]}
  else
    let analysis : gmap string pyval :=
      <["path" := PyStr (frontend_path t)]> {["exists" := PyBool true]} in
    let analysis :=
      match frontend_package_json t with
      | PkgData (PyDict package_data) =>
          <["install_command" := PyStr "npm install"]>
          (<["lint_command" := PyStr "npm run lint"]>
          (<["build_command" := PyStr "npm run build"]>
          (<["test_command" := PyStr "npm test"]>
          (<["scripts" := dict_get package_data "scripts" (PyDict ∅)]>
          (<["dependencies" := dict_get package_data "dependencies" (PyDict ∅)]>
          (<["framework" := PyStr "node"]> analysis))))))
      | PkgData _ => <["framework" := PyStr "node"]> analysis
      | PkgUnreadable => analysis
      | PkgMissing =>
          if frontend_index_html t then
            <["install_command" := PyStr (echo "No dependencies to install")]>
            (<["lint_command" := PyStr (echo "No linting configured")]>
            (<["build_command" := PyStr (echo "No build step needed")]>
            (<["test_command" := PyStr (echo "No tests defined for vanilla JS")]>
            (<["dependencies" := PyDict ∅]>
            (<["framework" := PyStr "vanilla-js"]> analysis)))))
          else analysis
      end in
    <["port" := PyInt (_detect_port_from_files (frontend_js_files t) 3000)]> analysis.

Definition _detect_python_framework (main_py : option string) : string :=
  match main_py with
  | Some content =>
      if Py.contains "fastapi" (Py.lower content) then "fastapi"
      else if Py.contains "flask" (Py.lower content) then "flask"
      else if Py.contains "django" (Py.lower content) then "django"
      else "unknown"
  | None => "unknown"
  end.

Definition newline : ascii := ascii_of_N 10.

(** [[req.strip() for req in requirements if req.strip()]] *)
Definition requirement_lines (text : string) : list string :=
  Py.strip <$>
    List.filter (fun req => negb (Py.is_empty (Py.strip req)))
                (Py.split newline (Py.strip text)).

Definition _analyze_backend (t : backend_tree) : gmap string pyval :=
  if negb (backend_exists t) then {["exists" := PyBool false]}
  else
    let analysis : gmap string pyval :=
      <["path" := PyStr (backend_path t)]> {["exists" := PyBool true]} in
    if bool_decide (is_Some (backend_requirements_txt t))
       || bool_decide (is_Some (backend_main_py t))
    then
      let analysis := <["language" := PyStr "python"]> analysis in
      let analysis :=
        <["framework" := PyStr (_detect_python_framework (backend_main_py t))]> analysis in
      let analysis :=
        match backend_requirements_txt t with
        | Some text =>
            <["dependencies" := PyList (PyStr <$> requirement_lines text)]> analysis
        | None => analysis
        end in
      <["port" := PyInt (_detect_port_from_files (backend_py_files t) 8000)]>
      (<["install_command" := PyStr "pip install -r requirements.txt"]>
      (<["lint_command" := PyStr "flake8"]>
      (<["test_command" := PyStr "pytest"]> analysis)))
    else analysis.

Definition _analyze_infrastructure (t : terraform_tree) : gmap string pyval :=
  let analysis : gmap string pyval :=
    <["terraform_path" := PyStr (terraform_path t)]>
      {["terraform_exists" := PyBool (terraform_exists t)]} in
  if terraform_exists t
  then <["terraform_files" := PyList (PyStr <$> terraform_tf_files t)]> analysis
  else analysis.

Definition _analyze_docker (t : docker_tree) : gmap string pyval :=
  <["dockerfiles" := PyList (PyStr <$> dockerfiles t)]>
    {["compose_exists" := PyBool (compose_exists t)]}.

Definition _analyze_git (t : git_tree) : gmap string pyval :=
  let analysis : gmap string pyval := {["is_git_repo" := PyBool (git_exists t)]} in
  if git_exists t then
    match git_branch_stdout t with
    | Some branch =>
        let analysis := <["current_branch" := PyStr (Py.strip branch)]> analysis in
        match git_remote_stdout t with
        | Some url => <["remote_url" := PyStr (Py.strip url)]> analysis
        | None => analysis
        end
    | None => analysis
    end
  else analysis.

Definition analyze_project (t : project_tree) : gmap string pyval :=
  <["git" := PyDict (_analyze_git (tree_git t))]>
  (<["docker" := PyDict (_analyze_docker (tree_docker t))]>
  (<["infrastructure" := PyDict (_analyze_infrastructure (tree_terraform t))]>
  (<["backend" := PyDict (_analyze_backend (tree_backend t))]>
  (<["frontend" := PyDict (_analyze_frontend (tree_frontend t))]> ∅)))).

(** ** Advisory enrichment *)

(** What the one request to the advisory service comes to.  [err] is
    the text of the exception raised. *)
Inductive reply_body : Type :=
  | BodyRaises (err : string)
  | ContentJson (v : pyval)
  | ContentText (content : string).

Inductive api_reply : Type :=
  | PostRaises (err : string)
  | Response (status_code : Z) (text : string) (body : reply_body).

(** [self.openai_token] and [self.ai_mode_requested] as [__init__]
    sets them. *)
Definition init_token (openai_token : option string) : option string :=
  match openai_token with
  | Some t => if Py.is_empty t then None else Some (Py.strip t)
  | None => None
  end.

Definition has_token (openai_token : option string) : bool :=
  match openai_token with
  | Some t => negb (Py.is_empty t)
  | None => false
  end.

Definition ai_mode_requested (openai_token : option string) : bool :=
  has_token (init_token openai_token).

Definition no_token_message : string :=
  "AI mode requested but no OpenAI API token provided. Use --openai-token or set OPENAI_API_TOKEN environment variable.".

(** The [except Exception as e] handler of [_call_openai_api]. *)
Definition api_failed (e : string) (fail_on_error : bool) : result pyval :=
  let error_msg := "Failed to access OpenAI API: " +:+ e in
  if fail_on_error then Raise (Exception error_msg) else Ok PyNone.

(** [body] is looked at only under status 200.  [json.loads] returning
    gives [ContentJson], its [JSONDecodeError] gives [ContentText];
    anything else raised on the way is [BodyRaises].  The [raise] of
    the other statuses sits inside the [try], so its message is
    wrapped by the handler; so is the [ValueError] of a status that
    the f-string cannot print. *)
Definition _call_openai_api (reply : api_reply) (fail_on_error : bool) : result pyval :=
  match reply with
  | PostRaises e => api_failed e fail_on_error
  | Response status_code text body =>
      if status_code =? 200 then
        match body with
        | BodyRaises e => api_failed e fail_on_error
        | ContentJson v => Ok v
        | ContentText content => Ok (PyDict {["recommendations" := PyStr content]})
        end
      else
        match Py.str_of_int status_code with
        | Some code =>
            let error_msg := "OpenAI API Error: " +:+ code +:+ " - " +:+ text in
            if fail_on_error then api_failed error_msg fail_on_error else Ok PyNone
        | None => api_failed Py.str_limit_message fail_on_error
        end
  end.

(** The reduced context put into the prompt; the two chained [.get]
    calls need the facet to be a [dict]. *)
Definition analysis_context (analysis : gmap string pyval) : result (gmap string pyval) :=
  infrastructure ← as_dict (dict_get analysis "infrastructure" (PyDict ∅));
  docker ← as_dict (dict_get analysis "docker" (PyDict ∅));
  Ok (<["docker_setup" := dict_get docker "compose_exists" (PyBool false)]>
     (<["infrastructure_exists" := dict_get infrastructure "terraform_exists" (PyBool false)]>
     (<["backend" := dict_get analysis "backend" (PyDict ∅)]>
     (<["frontend" := dict_get analysis "frontend" (PyDict ∅)]>
     {["project_type" := PyStr "web_application"]})))).

Definition _ai_enhance_analysis (openai_token : option string) (reply : api_reply)
    (analysis : gmap string pyval) (fail_on_ai_error : bool)
  : result (gmap string pyval) :=
  if negb (has_token openai_token) then
    if fail_on_ai_error then
      Raise (Exception no_token_message)
    else Ok analysis
  else
    let attempt : result (gmap string pyval) :=
      _ ← analysis_context analysis;
      ai_recommendations ← _call_openai_api reply fail_on_ai_error;
      if truthy ai_recommendations then
        Ok (<["ai_recommendations" := ai_recommendations]> analysis)
      else if fail_on_ai_error then
        Raise (Exception "Failed to get AI recommendations despite explicit AI mode request")
      else Ok analysis in
    match attempt with
    | Ok enhanced => Ok enhanced
    | Raise e => if fail_on_ai_error then Raise e else Ok analysis
    end.

(** ** [backend/main.py]: [format_data_for_qr] *)

Module Re.

(** Regular expressions over character classes, matched by
    derivatives: enough for the anchored patterns of the service. *)
Inductive re : Type :=
  | Nul
  | Eps
  | Chr (p : ascii -> bool)
  | Cat (a b : re)
  | Alt (a b : re)
  | Star (a : re).

Fixpoint nullable (r : re) : bool :=
  match r with
  | Nul => false
  | Eps => true
  | Chr _ => false
  | Cat a b => nullable a && nullable b
  | Alt a b => nullable a || nullable b
  | Star _ => true
  end.

Fixpoint deriv (c : ascii) (r : re) : re :=
  match r with
  | Nul => Nul
  | Eps => Nul
  | Chr p => if p c then Eps else Nul
  | Cat a b =>
      if nullable a then Alt (Cat (deriv c a) b) (deriv c b)
      else Cat (deriv c a) b
  | Alt a b => Alt (deriv c a) (deriv c b)
  | Star a => Cat (deriv c a) (Star a)
  end.

(** The whole of [s] is in the language of [r]. *)
Fixpoint fullmatch (r : re) (s : string) : bool :=
  match s with
  | EmptyString => nullable r
  | String c rest => fullmatch (deriv c r) rest
  end.

Definition plus (a : re) : re := Cat a (Star a).
Definition opt (a : re) : re := Alt a Eps.
Fixpoint lit (s : string) : re :=
  match s with
  | EmptyString => Eps
  | String c r => Cat (Chr (Py.eqc c)) (lit r)
  end.

(** [re.match] of a pattern [^r$]: the end anchor also holds just
    before a final line feed. *)
Definition match_anchored (r : re) (s : string) : bool :=
  fullmatch r s || fullmatch (Cat r (Chr (Py.eqc (ascii_of_N 10)))) s.

End Re.

Definition one_of (set : string) (c : ascii) : bool :=
  Py.contains (String c EmptyString) set.

(** [^[a-zA-Z0-9._%+-]+@[a-zA-Z0-9.-]+\.[a-zA-Z]{2,}$] *)
Definition email_re : Re.re :=
  Re.Cat (Re.plus (Re.Chr (fun c => Py.is_alnum c || one_of "._%+-" c)))
  (Re.Cat (Re.lit "@")
  (Re.Cat (Re.plus (Re.Chr (fun c => Py.is_alnum c || one_of ".-" c)))
  (Re.Cat (Re.lit ".")
  (Re.Cat (Re.Chr Py.is_alpha) (Re.plus (Re.Chr Py.is_alpha)))))).

(** [^https?://[^\s/$.?#].[^\s]*$]: the dot is any character but a
    line feed. *)
Definition url_re : Re.re :=
  Re.Cat (Re.lit "http")
  (Re.Cat (Re.opt (Re.lit "s"))
  (Re.Cat (Re.lit "://")
  (Re.Cat (Re.Chr (fun c => negb (Py.is_space c || one_of "/$.?#" c)))
  (Re.Cat (Re.Chr (fun c => negb (Py.eqc c (ascii_of_N 10))))
          (Re.Star (Re.Chr (fun c => negb (Py.is_space c)))))))).

(** [re.sub(r'[^\d+]', '', data)]: inside the class the plus sign is
    a literal, so digits and plus signs are what stays. *)
Definition phone_chars (data : string) : string :=
  Py.filter_str (fun c => Py.is_digit c || Py.eqc c "+") data.

Definition format_data_for_qr (data data_type : string) : result string :=
  if bool_decide (data_type = "email") then
    if negb (Re.match_anchored email_re data)
    then Raise (HTTPException 400 "Invalid email format")
    else Ok ("mailto:" +:+ data)
  else if bool_decide (data_type = "phone") then
    let phone := phone_chars data in
    if Py.is_empty phone || (Py.len phone <? 7)
    then Raise (HTTPException 400 "Invalid phone number")
    else Ok ("tel:" +:+ phone)
  else if bool_decide (data_type = "url") then
    let data :=
      if negb (Py.startswith "http://" data || Py.startswith "https://" data)
      then "https://" +:+ data else data in
    if negb (Re.match_anchored url_re data)
    then Raise (HTTPException 400 "Invalid URL format")
    else Ok data
  else if bool_decide (data_type = "wifi") then
    let parts := Py.split "," data in
    match parts with
    | p0 :: p1 :: rest =>
        let ssid := Py.strip p0 in
        let password := Py.strip p1 in
        let security :=
          match rest with
          | p2 :: _ => Py.upper (Py.strip p2)
          | [] => "WPA"
          end in
        let security :=
          if negb (bool_decide (security ∈ ["WPA"; "WEP"; "NOPASS"]))
          then "WPA" else security in
        Ok ("WIFI:T:" +:+ security +:+ ";S:" +:+ ssid +:+ ";P:" +:+ password +:+ ";;")
    | _ => Raise (HTTPException 400 "WiFi format: SSID,Password,Security")
    end
  else Ok data.

(** ** The CI workflow *)

(** A text of the workflow: a literal, or an f-string with the one
    value substituted into it. *)
Inductive text : Type :=
  | Lit (s : string)
  | Fmt (before : string) (v : pyval) (after : string).

(** A step of a job: the dictionary with the keys [name], [id], [if],
    [uses], [run], [with] and [continue-on-error]; a key that is left
    out is [None], the empty list or [false]. *)
Record step : Type := {
  step_name : string;
  step_id : option string;
  step_if : option string;
  step_uses : option string;
  step_run : option text;
  step_with : list (string * pyval);
  step_continue_on_error : bool
}.

(** A job; all jobs run on [ubuntu-latest]. *)
Record job : Type := {
  job_name : string;
  job_needs : option pyval;
  job_if : option string;
  job_env : list (string * string);
  job_steps : list step
}.

(** The steps every validation job starts with *)
Definition validation_steps : list step :=
  [ {| step_name := "Checkout code";
     step_id := None;
     step_if := None;
     step_uses := Some "actions/checkout@v4";
     step_run := None;
     step_with := [];
     step_continue_on_error := false |};
    {| step_name := "Validate YAML files";
     step_id := None;
     step_if := None;
     step_uses := None;
     step_run := Some (Lit ("find . -name " +:+ dquote +:+ "*.yml" +:+ dquote +:+ " -o -name " +:+ dquote +:+ "*.yaml" +:+ dquote +:+ " | xargs -I {} sh -c 'echo " +:+ dquote +:+ "Validating {}" +:+ dquote +:+ " && python -c " +:+ dquote +:+ "import yaml; yaml.safe_load(open('{}'))" +:+ dquote +:+ " || exit 1'"));
     step_with := [];
     step_continue_on_error := false |} ].

(** The steps added when the Terraform directory exists *)
Definition terraform_validation_steps : list step :=
  [ {| step_name := "Setup Terraform";
     step_id := None;
     step_if := None;
     step_uses := Some "hashicorp/setup-terraform@v3";
     step_run := None;
     step_with := [("terraform_version", PyStr "${{ env.TERRAFORM_VERSION }}")];
     step_continue_on_error := false |};
    {| step_name := "Terraform Format Check";
     step_id := None;
     step_if := None;
     step_uses := None;
     step_run := Some (Lit "terraform fmt -check -recursive terraform/");
     step_with := [];
     step_continue_on_error := true |};
    {| step_name := "Terraform Validate";
     step_id := None;
     step_if := None;
     step_uses := None;
     step_run := Some (Lit "
                    cd terraform
                    terraform init -backend=false
                    terraform validate
                    ");
     step_with := [];
     step_continue_on_error := false |} ].

(** The step every test job starts with *)
Definition checkout_steps : list step :=
  [ {| step_name := "Checkout code";
     step_id := None;
     step_if := None;
     step_uses := Some "actions/checkout@v4";
     step_run := None;
     step_with := [];
     step_continue_on_error := false |} ].

(** The steps of a Python backend; the three commands are substituted
    into the f-strings *)
Definition backend_test_steps (install_command lint_command test_command : pyval) : list step :=
  [ {| step_name := "Set up Python";
     step_id := None;
     step_if := None;
     step_uses := Some "actions/setup-python@v4";
     step_run := None;
     step_with := [("python-version", PyStr "3.11")];
     step_continue_on_error := false |};
    {| step_name := "Install backend dependencies";
     step_id := None;
     step_if := None;
     step_uses := None;
     step_run := Some (Fmt "cd backend && " install_command "");
     step_with := [];
     step_continue_on_error := false |};
    {| step_name := "Lint backend code";
     step_id := None;
     step_if := None;
     step_uses := None;
     step_run := Some (Fmt "cd backend && " lint_command " || echo 'Linting not configured'");
     step_with := [];
     step_continue_on_error := true |};
    {| step_name := "Test backend code";
     step_id := None;
     step_if := None;
     step_uses := None;
     step_run := Some (Fmt "cd backend && " test_command " || echo 'Tests not configured'");
     step_with := [];
     step_continue_on_error := true |} ].

(** The steps of a Node frontend *)
Definition frontend_test_steps (install_command lint_command test_command : pyval) : list step :=
  [ {| step_name := "Set up Node.js";
     step_id := None;
     step_if := None;
     step_uses := Some "actions/setup-node@v4";
     step_run := None;
     step_with := [("node-version", PyStr "18")];
     step_continue_on_error := false |};
    {| step_name := "Install frontend dependencies";
     step_id := None;
     step_if := None;
     step_uses := None;
     step_run := Some (Fmt "cd frontend && " install_command "");
     step_with := [];
     step_continue_on_error := false |};
    {| step_name := "Lint frontend code";
     step_id := None;
     step_if := None;
     step_uses := None;
     step_run := Some (Fmt "cd frontend && " lint_command " || echo 'Linting not configured'");
     step_with := [];
     step_continue_on_error := true |};
    {| step_name := "Test frontend code";
     step_id := None;
     step_if := None;
     step_uses := None;
     step_run := Some (Fmt "cd frontend && " test_command " || echo 'Tests not configured'");
     step_with := [];
     step_continue_on_error := true |} ].

(** The step of a frontend that is not a Node package *)
Definition frontend_static_step : step :=
  {| step_name := "Validate frontend files";
     step_id := None;
     step_if := None;
     step_uses := None;
     step_run := Some (Lit ("echo " +:+ dquote +:+ "Frontend validation: Static files detected, no additional tests needed" +:+ dquote));
     step_with := [];
     step_continue_on_error := false |}.

(** The steps every deploy job has *)
Definition deploy_steps : list step :=
  [ {| step_name := "Checkout code";
     step_id := None;
     step_if := None;
     step_uses := Some "actions/checkout@v4";
     step_run := None;
     step_with := [];
     step_continue_on_error := false |};
    {| step_name := "Setup Terraform";
     step_id := None;
     step_if := None;
     step_uses := Some "hashicorp/setup-terraform@v3";
     step_run := None;
     step_with := [("terraform_version", PyStr "${{ env.TERRAFORM_VERSION }}")];
     step_continue_on_error := false |};
    {| step_name := "Terraform Init";
     step_id := None;
     step_if := None;
     step_uses := None;
     step_run := Some (Lit "
                    cd terraform
                    terraform init
                    ");
     step_with := [];
     step_continue_on_error := false |};
    {| step_name := "Terraform Plan";
     step_id := None;
     step_if := None;
     step_uses := None;
     step_run := Some (Lit "
                    cd terraform
                    terraform plan -out=tfplan
                    ");
     step_with := [];
     step_continue_on_error := false |};
    {| step_name := "Terraform Apply";
     step_id := None;
     step_if := None;
     step_uses := None;
     step_run := Some (Lit "
                    cd terraform
                    terraform apply -auto-approve tfplan
                    ");
     step_with := [];
     step_continue_on_error := false |};
    {| step_name := "Get deployment info";
     step_id := Some "deployment";
     step_if := None;
     step_uses := None;
     step_run := Some (Lit ("
                    cd terraform
                    echo " +:+ dquote +:+ "public_ip=$(terraform output -raw public_ip)" +:+ dquote +:+ " >> $GITHUB_OUTPUT
                    echo " +:+ dquote +:+ "frontend_url=$(terraform output -raw application_urls | jq -r .frontend)" +:+ dquote +:+ " >> $GITHUB_OUTPUT
                    echo " +:+ dquote +:+ "backend_url=$(terraform output -raw application_urls | jq -r .backend_api)" +:+ dquote +:+ " >> $GITHUB_OUTPUT
                    "));
     step_with := [];
     step_continue_on_error := false |};
    {| step_name := "Wait for application startup";
     step_id := None;
     step_if := None;
     step_uses := None;
     step_run := Some (Lit ("
                    echo " +:+ dquote +:+ "Waiting for application to start..." +:+ dquote +:+ "
                    sleep 60
                    
                    # Check application health
                    curl -f ${{ steps.deployment.outputs.backend_url }}/health || echo " +:+ dquote +:+ "Backend health check failed" +:+ dquote +:+ "
                    curl -f ${{ steps.deployment.outputs.frontend_url }} || echo " +:+ dquote +:+ "Frontend health check failed" +:+ dquote +:+ "
                    "));
     step_with := [];
     step_continue_on_error := false |} ].

(** The mail step; [recipient] is [config.get('email_recipient', ...)] *)
Definition notification_step (recipient : pyval) : step :=
  {| step_name := "Send deployment notification";
     step_id := None;
     step_if := Some "always()";
     step_uses := Some "dawidd6/action-send-mail@v3";
     step_run := None;
     step_with := [("server_address", PyStr "smtp.gmail.com");
       ("server_port", PyStr "587");
       ("username", PyStr "${{ secrets.EMAIL_USERNAME }}");
       ("password", PyStr "${{ secrets.EMAIL_PASSWORD }}");
       ("subject", PyStr "QR Generator Deployment ${{ job.status }}");
       ("to", recipient);
       ("from", PyStr "${{ secrets.EMAIL_USERNAME }}");
       ("body", PyStr "
                    Deployment Status: ${{ job.status }}
                    
                    Frontend URL: ${{ steps.deployment.outputs.frontend_url }}
                    Backend API: ${{ steps.deployment.outputs.backend_url }}
                    
                    Commit: ${{ github.sha }}
                    Repository: ${{ github.repository }}
                    ")];
     step_continue_on_error := false |}.

(** [v[key]] for a string key: only a [dict] can be subscripted so. *)
Definition subscript (v : pyval) (key : string) : result pyval :=
  match v with
  | PyDict d => getitem d key
  | _ => Raise TypeError
  end.

(** [v == s] for a string [s] *)
Definition eq_str (v : pyval) (s : string) : bool :=
  match v with
  | PyStr t => bool_decide (t = s)
  | _ => false
  end.

Definition _create_validation_job (analysis : gmap string pyval) : result job :=
  infrastructure ← getitem analysis "infrastructure";
  terraform_exists ← subscript infrastructure "terraform_exists";
  let steps :=
    if truthy terraform_exists
    then validation_steps ++ terraform_validation_steps
    else validation_steps in
  Ok {| job_name := "Validate Code and Infrastructure";
        job_needs := None;
        job_if := None;
        job_env := [];
        job_steps := steps |}.

(** The steps the backend adds to the test job *)
Definition backend_steps (analysis : gmap string pyval) : result (list step) :=
  backend ← getitem analysis "backend";
  exists_ ← subscript backend "exists";
  if truthy exists_ then
    facet ← as_dict backend;
    if eq_str (dict_get facet "language" PyNone) "python" then
      install_command ← getitem facet "install_command";
      lint_command ← getitem facet "lint_command";
      test_command ← getitem facet "test_command";
      Ok (backend_test_steps install_command lint_command test_command)
    else Ok []
  else Ok [].

(** The steps the frontend adds to the test job *)
Definition frontend_steps (analysis : gmap string pyval) : result (list step) :=
  frontend ← getitem analysis "frontend";
  exists_ ← subscript frontend "exists";
  if truthy exists_ then
    facet ← as_dict frontend;
    if eq_str (dict_get facet "framework" PyNone) "node" then
      install_command ← getitem facet "install_command";
      lint_command ← getitem facet "lint_command";
      test_command ← getitem facet "test_command";
      Ok (frontend_test_steps install_command lint_command test_command)
    else Ok [frontend_static_step]
  else Ok [].

Definition _create_test_job (analysis : gmap string pyval) : result job :=
  backend ← backend_steps analysis;
  frontend ← frontend_steps analysis;
  Ok {| job_name := "Run Tests";
        job_needs := Some (PyStr "validate");
        job_if := None;
        job_env := [];
        job_steps := checkout_steps ++ backend ++ frontend |}.

Definition _create_deploy_job (config : gmap string cfgval) : result job :=
  email_notification ← str_method (cfg_get config "email_notification" (PyStr "false"));
  let steps :=
    if bool_decide (Py.lower email_notification = "true")
    then deploy_steps ++
         [notification_step (cfg_get config "email_recipient" (PyStr "demo@example.com"))]
    else deploy_steps in
  Ok {| job_name := "Deploy to AWS";
        job_needs := Some (PyList [PyStr "validate"; PyStr "test"]);
        job_if := Some "github.ref == 'refs/heads/main'";
        job_env := [("AWS_ACCESS_KEY_ID", "${{ secrets.AWS_ACCESS_KEY_ID }}");
                    ("AWS_SECRET_ACCESS_KEY", "${{ secrets.AWS_SECRET_ACCESS_KEY }}")];
        job_steps := steps |}.

(** The workflow document: its name, as the f-string prints the
    configured value, and the three jobs; the triggers and the
    environment block do not vary. *)
Record workflow : Type := {
  workflow_name : pyval;
  workflow_validate : job;
  workflow_test : job;
  workflow_deploy : job
}.

(** A file of [.github/workflows]: a text found there, the CI
    workflow, or the self-trigger workflow, whose only varying part is
    the name of the branch it proposes. *)
Inductive workflow_file : Type :=
  | KeptWorkflow (content : string)
  | CiCd (w : workflow)
  | AiGenerate (branch : string).

Definition ci_cd_workflow (config : gmap string cfgval)
    (analysis : gmap string pyval) : result workflow :=
  let name := cfg_get config "pipeline_name" (PyStr "AI-Generated Pipeline") in
  validate ← _create_validation_job analysis;
  test ← _create_test_job analysis;
  deploy ← _create_deploy_job config;
  Ok {| workflow_name := name;
        workflow_validate := validate;
        workflow_test := test;
        workflow_deploy := deploy |}.

(** The directory is made first, so it exists even when building the
    document raises; the file is written last. *)
Definition _generate_github_workflow (config : gmap string cfgval)
    (analysis : gmap string pyval) (workflows : option (gmap string workflow_file))
  : option (gmap string workflow_file) * option exn :=
  let dir := default ∅ workflows in
  match ci_cd_workflow config analysis with
  | Raise e => (Some dir, Some e)
  | Ok w => (Some (<["ci-cd.yml" := CiCd w]> dir), None)
  end.

(** [stamp] is [datetime.now().strftime('%Y%m%d-%H%M%S')]. *)
Definition _generate_ai_workflow_trigger (stamp : string)
    (workflows : option (gmap string workflow_file))
  : option (gmap string workflow_file) :=
  Some (<["ai-generate-workflow.yml" := AiGenerate ("ai-pipeline-" +:+ stamp)]>
          (default ∅ workflows)).

Definition _ensure_docker_configuration (analysis : gmap string pyval) : result unit :=
  docker ← getitem analysis "docker";
  _ ← subscript docker "compose_exists";
  docker ← getitem analysis "docker";
  _ ← subscript docker "dockerfiles";
  Ok tt.

(** ** The report and the run *)

Definition _get_current_version (version_file : option string) : string :=
  match version_file with
  | Some content => Py.strip content
  | None => "0.1.0"
  end.

(** The values substituted into the README template. *)
Record readme : Type := {
  readme_frontend_framework : pyval;
  readme_frontend_port : pyval;
  readme_backend_framework : pyval;
  readme_backend_port : pyval;
  readme_last_updated : string;
  readme_version : string
}.

Inductive readme_file : Type :=
  | KeptReadme (content : string)
  | Readme (doc : readme).

(** [stamp] is [datetime.now().strftime('%Y-%m-%d %H:%M:%S')]. *)
Definition _update_readme (analysis : gmap string pyval) (stamp : string)
    (version_file : option string) : result readme_file :=
  frontend ← getitem analysis "frontend";
  frontend ← as_dict frontend;
  backend ← getitem analysis "backend";
  backend ← as_dict backend;
  Ok (Readme
        {| readme_frontend_framework := dict_get frontend "framework" (PyStr "Unknown");
           readme_frontend_port := dict_get frontend "port" (PyStr "N/A");
           readme_backend_framework := dict_get backend "framework" (PyStr "Unknown");
           readme_backend_port := dict_get backend "port" (PyStr "N/A");
           readme_last_updated := stamp;
           readme_version := _get_current_version version_file |}).

(** The files a run writes. *)
Record project_files : Type := {
  files_workflows : option (gmap string workflow_file);
  files_terraform : option (gmap string artifact);
  files_readme : option readme_file;
  files_version : option string
}.

(** The two readings of the clock, already formatted. *)
Record clock : Type := {
  clock_branch : string;
  clock_readme : string
}.

(** The body of the [try] of [generate_pipeline]: the steps in their
    order, each on the files the steps before it left; the exception
    of the first step that raises ends it. *)
Definition generation_steps (config : gmap string cfgval)
    (analysis : gmap string pyval) (now : clock) (files : project_files)
  : project_files * option exn :=
  let '(workflows, raised) :=
    _generate_github_workflow config analysis (files_workflows files) in
  let files :=
    {| files_workflows := workflows; files_terraform := files_terraform files;
       files_readme := files_readme files; files_version := files_version files |} in
  match raised with
  | Some e => (files, Some e)
  | None =>
  let files :=
    {| files_workflows :=
         _generate_ai_workflow_trigger (clock_branch now) (files_workflows files);
       files_terraform := files_terraform files;
       files_readme := files_readme files; files_version := files_version files |} in
  let '(terraform, raised) :=
    _ensure_terraform_infrastructure config analysis (files_terraform files) in
  let files :=
    {| files_workflows := files_workflows files; files_terraform := terraform;
       files_readme := files_readme files; files_version := files_version files |} in
  match raised with
  | Some e => (files, Some e)
  | None =>
  match _ensure_docker_configuration analysis with
  | Raise e => (files, Some e)
  | Ok _ =>
  match _update_readme analysis (clock_readme now) (files_version files) with
  | Raise e => (files, Some e)
  | Ok written =>
  let files :=
    {| files_workflows := files_workflows files;
       files_terraform := files_terraform files;
       files_readme := Some written; files_version := files_version files |} in
  ({| files_workflows := files_workflows files;
      files_terraform := files_terraform files;
      files_readme := files_readme files;
      files_version := _increment_version (files_version files) |}, None)
  end end end end.

(** [openai_token] is [self.openai_token]; the run asks for strict
    enrichment exactly when it has a token.  Enrichment is outside the
    [try]: what it raises leaves [generate_pipeline]; what a
    generation step raises is caught and makes the answer [False]. *)
Definition generate_pipeline (openai_token : option string) (reply : api_reply)
    (config : gmap string cfgval) (tree : project_tree) (now : clock)
    (files : project_files) : project_files * result bool :=
  let analysis := analyze_project tree in
  match _ai_enhance_analysis openai_token reply analysis (has_token openai_token) with
  | Raise e => (files, Raise e)
  | Ok analysis =>
      match generation_steps config analysis now files with
      | (files, None) => (files, Ok true)
      | (files, Some _) => (files, Ok false)
      end
  end.

(** The token [main] hands to the generator:
    [args.openai_token or os.getenv('OPENAI_API_TOKEN')]. *)
Definition chosen_token (arg_token env_token : option string) : option string :=
  match arg_token with
  | Some a => if Py.is_empty a then env_token else Some a
  | None => env_token
  end.

(** [main] without [--analyze-only]: the generator is built from the
    chosen token and the override file, the pipeline is generated, and
    the process ends with status 0 when the answer is [True] and with
    status 1 when it is [False] or when anything was raised.
    [--auto-commit] only runs [git] and changes neither the files nor
    the status. *)
Definition main_generate (arg_token env_token : option string) (reply : api_reply)
    (request : config_file) (tree : project_tree) (now : clock)
    (files : project_files) : project_files * Z :=
  let openai_token := init_token (chosen_token arg_token env_token) in
  let config := _load_config request in
  match generate_pipeline openai_token reply config tree now files with
  | (files, Ok true) => (files, 0)
  | (files, Ok false) => (files, 1)
  | (files, Raise _) => (files, 1)
  end.

(** ** Notions used to state what the code does *)

(** A line the loader passes over: blank, a comment, or without a
    colon. *)
Definition ignored_line (line : string) : bool :=
  Py.is_empty (Py.strip line) || Py.startswith "#" (Py.strip line)
  || negb (Py.contains ":" (Py.strip line)).

(** A [package.json] that parses to something other than an object,
    in a frontend directory that exists. *)
Definition manifest_not_object (t : frontend_tree) : bool :=
  frontend_exists t &&
  match frontend_package_json t with
  | PkgData (PyDict _) => false
  | PkgData _ => true
  | _ => false
  end.

(** The names of the six files of the Terraform bundle. *)
Definition bundle_files : list string :=
  ["main.tf"; "user_data.sh"; "variables.tf"; "outputs.tf";
   "terraform.tfvars"; "terraform.tfvars.example"].

(** [k] runs of the version step, each on the file the run before it
    wrote. *)
Fixpoint repeated_runs (k : nat) (version_file : option string) : option string :=
  match k with
  | O => version_file
  | S k' => repeated_runs k' (_increment_version version_file)
  end.

(** A lint or test step, by its name. *)
Definition lint_or_test (s : step) : bool :=
  Py.startswith "Lint " (step_name s) || Py.startswith "Test " (step_name s).

(** The three files whose presence makes the Terraform step return at
    once. *)
Definition bundle_present (terraform : option (gmap string artifact)) : bool :=
  bool_decide (is_Some (terraform ≫= (.!! "main.tf")))
  && bool_decide (is_Some (terraform ≫= (.!! "variables.tf")))
  && bool_decide (is_Some (terraform ≫= (.!! "outputs.tf"))).

(** A configuration entry that holds a bracketed list. *)
Definition is_list (v : option cfgval) : bool :=
  match v with
  | Some (CList _) => true
  | _ => false
  end.





(** Whether the generation steps of a run go through: the manifest of
    the frontend is an object or absent, [email_notification] is not a
    bracketed list, and the Terraform bundle is either there already
    or can be written. *)
Definition run_succeeds (config : gmap string cfgval) (t : project_tree)
    (files : project_files) : bool :=
  negb (manifest_not_object (tree_frontend t))
  && negb (is_list (config !! "email_notification"))
  && (bundle_present (files_terraform files)
      || negb (is_list (config !! "pipeline_name") || is_list (config !! "ami"))).

(** The language of a regular expression. *)
Inductive matches : Re.re -> string -> Prop :=
  | matches_eps : matches Re.Eps ""
  | matches_chr (p : ascii -> bool) (c : ascii) :
      p c = true -> matches (Re.Chr p) (String c "")
  | matches_cat (a b : Re.re) (s t : string) :
      matches a s -> matches b t -> matches (Re.Cat a b) (s +:+ t)
  | matches_alt_l (a b : Re.re) (s : string) :
      matches a s -> matches (Re.Alt a b) s
  | matches_alt_r (a b : Re.re) (s : string) :
      matches b s -> matches (Re.Alt a b) s
  | matches_star_nil (a : Re.re) : matches (Re.Star a) ""
  | matches_star_app (a : Re.re) (s t : string) :
      matches a s -> matches (Re.Star a) t -> matches (Re.Star a) (s +:+ t).

(** ** The claims of the specification, in its own words *)

(** A version of the shape [X.Y.Z]: the decimal numerals of the three
    numbers between dots. *)
Definition version_string (X Y Z : N) : string :=
  Py.decimal (Z.of_N X) +:+ "." +:+ Py.decimal (Z.of_N Y) +:+ "."
    +:+ Py.decimal (Z.of_N Z).

(** The first number that [str] does not print. *)
Definition str_limit : Z := 10 ^ Py.max_str_digits.

Arguments str_limit : simpl never.



(** The value of a run of digits read from the left. *)
Fixpoint digits_value (s : string) (acc : Z) : Z :=
  match s with
  | EmptyString => acc
  | String c r => digits_value r (10 * acc + Py.digit_val c)
  end.



(** The fields the specification declares for the frontend facet
    besides the flag, under the analyzer's names. *)
Definition frontend_fields : list string :=
  ["framework"; "dependencies"; "scripts"; "port"].

(** What is left of a phone input once every non-digit is dropped. *)
Definition digits_of (data : string) : string := Py.filter_str Py.is_digit data.


(** What a call that brings something back returns: the decoded
    reply when it is not empty, or the raw text wrapped. *)
Definition answer (reply : api_reply) : option pyval :=
  match reply with
  | Response 200 _ (ContentJson v) => if truthy v then Some v else None
  | Response 200 _ (ContentText content) =>
      Some (PyDict {["recommendations" := PyStr content]})
  | _ => None
  end.

(** The ways enrichment can fail: no credential, an exception while
    the context is built, a transport failure, a status other than
    200, an exception while the reply is taken apart, and a reply
    that decodes to an empty value. *)
Inductive enrichment_failure (openai_token : option string)
    (analysis : gmap string pyval) : api_reply -> Prop :=
  | missing_credential reply :
      has_token openai_token = false ->
      enrichment_failure openai_token analysis reply
  | context_exception reply e :
      analysis_context analysis = Raise e ->
      enrichment_failure openai_token analysis reply
  | transport_failure err :
      enrichment_failure openai_token analysis (PostRaises err)
  | bad_status status_code text body :
      status_code <> 200 ->
      enrichment_failure openai_token analysis (Response status_code text body)
  | body_exception text err :
      enrichment_failure openai_token analysis (Response 200 text (BodyRaises err))
  | empty_answer text v :
      truthy v = false ->
      enrichment_failure openai_token analysis (Response 200 text (ContentJson v)).

(** A project without a frontend directory whose backend [main.py]
    starts the server on port 9090. *)
Definition sample_tree : project_tree :=
  {| tree_frontend :=
       {| frontend_exists := false; frontend_path := "frontend";
          frontend_package_json := PkgMissing; frontend_index_html := false;
          frontend_js_files := [] |};
     tree_backend :=
       {| backend_exists := true; backend_path := "backend";
          backend_requirements_txt := Some "fastapi==0.100.0
uvicorn
";
          backend_main_py := Some "from fastapi import FastAPI; uvicorn.run(app, port=9090)";
          backend_py_files := [ScanFails; Scan None; Scan (Some 9090)] |};
     tree_terraform :=
       {| terraform_exists := false; terraform_path := "terraform";
          terraform_tf_files := [] |};
     tree_docker := {| compose_exists := false; dockerfiles := [] |};
     tree_git :=
       {| git_exists := false; git_branch_stdout := None;
          git_remote_stdout := None |} |}.

(** A clock and a project in which nothing has been generated yet. *)
Definition sample_clock : clock :=
  {| clock_branch := "20240101-000000"; clock_readme := "2024-01-01 00:00:00" |}.

Definition no_files : project_files :=
  {| files_workflows := None; files_terraform := None;
     files_readme := None; files_version := None |}.

(** * Proofs *)

(** ** Strings *)

Section Strings.

Lemma app_cons (c : ascii) (a b : string) : String c a +:+ b = String c (a +:+ b).
Proof. reflexivity. Qed.

Lemma app_empty (b : string) : "" +:+ b = b.
Proof. reflexivity. Qed.

Lemma append_nil_r (s : string) : s +:+ "" = s.
Proof. induction s as [|c s IH]; [done | by rewrite app_cons, IH]. Qed.

Lemma append_assoc (a b c : string) : (a +:+ b) +:+ c = a +:+ b +:+ c.
Proof. induction a as [|x a IH]; [done | by rewrite !app_cons, IH]. Qed.

Lemma forallb_str_app (p : ascii -> bool) (a b : string) :
  Py.forallb_str p (a +:+ b) = Py.forallb_str p a && Py.forallb_str p b.
Proof.
  induction a as [|x a IH]; [done |].
  rewrite app_cons. simpl. rewrite IH. by destruct (p x).
Qed.

Lemma forallb_str_impl (p q : ascii -> bool) (s : string) :
  (forall c, p c = true -> q c = true) ->
  Py.forallb_str p s = true -> Py.forallb_str q s = true.
Proof.
  intros Hpq. induction s as [|x s IH]; simpl; [done |].
  intros [Hx Hs]%andb_prop. rewrite (Hpq _ Hx). by apply IH.
Qed.

Lemma lstrip_by_none (p : ascii -> bool) (s : string) :
  Py.forallb_str (fun c => negb (p c)) s = true -> Py.lstrip_by p s = s.
Proof.
  destruct s as [|c s]; simpl; [done |].
  intros [Hc _]%andb_prop. by destruct (p c).
Qed.

Lemma rstrip_by_none (p : ascii -> bool) (s : string) :
  Py.forallb_str (fun c => negb (p c)) s = true -> Py.rstrip_by p s = s.
Proof.
  induction s as [|c s IH]; simpl; [done |].
  intros [Hc Hs]%andb_prop. rewrite (IH Hs).
  by destruct (p c).
Qed.

(** Stripping changes nothing when no character is in the class. *)
Lemma strip_by_none (p : ascii -> bool) (s : string) :
  Py.forallb_str (fun c => negb (p c)) s = true -> Py.strip_by p s = s.
Proof.
  intros H. unfold Py.strip_by. rewrite (lstrip_by_none _ _ H).
  by apply rstrip_by_none.
Qed.

Lemma strip_no_space (s : string) :
  Py.forallb_str (fun c => negb (Py.is_space c)) s = true -> Py.strip s = s.
Proof. apply strip_by_none. Qed.

Lemma split_no_sep (sep : ascii) (a : string) :
  Py.forallb_str (fun c => negb (Py.eqc c sep)) a = true ->
  Py.split sep a = [a].
Proof.
  induction a as [|c a IH]; simpl; [done |].
  intros [Hc Ha]%andb_prop. rewrite (IH Ha).
  by destruct (Py.eqc c sep).
Qed.

Lemma split_app_sep (sep : ascii) (a b : string) :
  Py.forallb_str (fun c => negb (Py.eqc c sep)) a = true ->
  Py.split sep (a +:+ String sep b) = a :: Py.split sep b.
Proof.
  induction a as [|c a IH].
  - intros _. rewrite app_empty. simpl. unfold Py.eqc.
    by rewrite bool_decide_eq_true_2.
  - rewrite app_cons. simpl. intros [Hc Ha]%andb_prop. rewrite (IH Ha).
    by destruct (Py.eqc c sep).
Qed.

End Strings.

(** ** Decimal numerals *)

Section Decimal.

Lemma digit_char_spec (d : Z) :
  0 <= d < 10 ->
  Py.is_digit (Py.digit_char d) = true /\ Py.digit_val (Py.digit_char d) = d.
Proof.
  intros H.
  assert (d = 0 \/ d = 1 \/ d = 2 \/ d = 3 \/ d = 4 \/ d = 5 \/ d = 6 \/
          d = 7 \/ d = 8 \/ d = 9) as Hd by lia.
  destruct_or!; subst d; by vm_compute.
Qed.

Lemma digit_is_plain (c : ascii) :
  Py.is_digit c = true ->
  Py.is_space c = false /\ Py.eqc c "." = false /\ Py.eqc c "-" = false /\
  Py.eqc c "+" = false /\ Py.is_cspace c = false.
Proof.
  destruct c as [[] [] [] [] [] [] [] []]; vm_compute; intros H;
    try discriminate H; by repeat split.
Qed.

Lemma digits_no_space (s : string) :
  Py.forallb_str Py.is_digit s = true ->
  Py.forallb_str (fun c => negb (Py.is_space c)) s = true.
Proof.
  apply forallb_str_impl. intros c Hc.
  destruct (digit_is_plain c Hc) as (-> & _). done.
Qed.

Lemma digits_no_cspace (s : string) :
  Py.forallb_str Py.is_digit s = true ->
  Py.forallb_str (fun c => negb (Py.is_cspace c)) s = true.
Proof.
  apply forallb_str_impl. intros c Hc.
  destruct (digit_is_plain c Hc) as (_ & _ & _ & _ & ->). done.
Qed.

Lemma digits_no_dot (s : string) :
  Py.forallb_str Py.is_digit s = true ->
  Py.forallb_str (fun c => negb (Py.eqc c ".")) s = true.
Proof.
  apply forallb_str_impl. intros c Hc.
  destruct (digit_is_plain c Hc) as (_ & -> & _). done.
Qed.

Lemma int_digits_digits (s : string) (acc : Z) (after_digit : bool) :
  Py.forallb_str Py.is_digit s = true ->
  Py.is_empty s = false \/ after_digit = true ->
  Py.int_digits s acc after_digit = Some (digits_value s acc).
Proof.
  revert acc after_digit.
  induction s as [|c s IH]; intros acc after_digit Hs Hne; simpl in *.
  - destruct Hne as [Hne | ->]; [discriminate | done].
  - apply andb_prop in Hs as [Hc Hs]. rewrite Hc. apply IH; auto.
Qed.

Lemma digits_value_app (a b : string) (acc : Z) :
  digits_value (a +:+ b) acc = digits_value b (digits_value a acc).
Proof.
  revert acc. induction a as [|c a IH]; intros acc; [done |].
  rewrite app_cons. simpl. apply IH.
Qed.

Lemma is_empty_app_cons (a b : string) (c : ascii) :
  Py.is_empty (a +:+ String c b) = false.
Proof. destruct a; reflexivity. Qed.

Lemma nat_digits_digits (fuel : nat) (n : Z) :
  0 <= n -> Py.forallb_str Py.is_digit (Py.nat_digits fuel n) = true.
Proof.
  revert n. induction fuel as [|f IH]; intros n Hn; simpl; [done |].
  rewrite forallb_str_app. apply andb_true_intro. split.
  - destruct (n <? 10); [done |]. apply IH. by apply Z.div_pos.
  - simpl. rewrite andb_true_r.
    apply digit_char_spec, Z.mod_pos_bound. lia.
Qed.

Lemma nat_digits_value (fuel : nat) (n : Z) :
  0 <= n < 2 ^ Z.of_nat fuel ->
  digits_value (Py.nat_digits fuel n) 0 = n.
Proof.
  revert n. induction fuel as [|f IH]; intros n Hn.
  - simpl in *. lia.
  - rewrite Nat2Z.inj_succ, Z.pow_succ_r in Hn by lia.
    cbn [Py.nat_digits]. rewrite digits_value_app. simpl.
    destruct (digit_char_spec (n mod 10)) as [_ ->];
      [apply Z.mod_pos_bound; lia |].
    destruct (Z.ltb_spec n 10) as [Hlt | Hge].
    + simpl. rewrite Z.mod_small by lia. lia.
    + rewrite IH.
      * pose proof (Z.div_mod n 10). lia.
      * split; [apply Z.div_pos; lia |].
        apply Z.div_lt_upper_bound; lia.
Qed.

(** The numeral of a non-negative integer is a non-empty run of
    digits whose value is the integer. *)
Lemma decimal_nonneg (n : Z) :
  0 <= n ->
  Py.forallb_str Py.is_digit (Py.decimal n) = true /\
  Py.is_empty (Py.decimal n) = false /\
  digits_value (Py.decimal n) 0 = n.
Proof.
  intros Hn. unfold Py.decimal.
  destruct (Z.ltb_spec n 0) as [? | _]; [lia |].
  split; [by apply nat_digits_digits |]. split.
  - cbn [Py.nat_digits]. apply is_empty_app_cons.
  - apply nat_digits_value. split; [done |].
    rewrite Nat2Z.inj_succ, Z2Nat.id by apply Z.log2_nonneg.
    destruct (Z.eq_dec n 0) as [-> | Hne]; [by vm_compute |].
    apply Z.log2_spec. lia.
Qed.

Lemma decimal_neg (n : Z) :
  n < 0 -> Py.decimal n = String "-" (Py.decimal (- n)).
Proof.
  intros Hn. unfold Py.decimal.
  destruct (Z.ltb_spec n 0); [|lia].
  destruct (Z.ltb_spec (- n) 0); [lia | done].
Qed.

(** *** The digit limit *)

Lemma max_str_digits_pos : 1 <= Py.max_str_digits.
Proof. unfold Py.max_str_digits. lia. Qed.

Lemma str_limit_pos : 1 < str_limit.
Proof.
  unfold str_limit. apply Z.pow_gt_1; [lia |].
  pose proof max_str_digits_pos. lia.
Qed.

Lemma count_digits_app (a b : string) :
  Py.count_digits (a +:+ b) = Py.count_digits a + Py.count_digits b.
Proof.
  induction a as [|c a IH]; [by rewrite app_empty |].
  rewrite app_cons. cbn [Py.count_digits]. rewrite IH. lia.
Qed.

Lemma count_digits_nonneg (s : string) : 0 <= Py.count_digits s.
Proof.
  induction s as [|c s IH]; cbn [Py.count_digits]; [lia |].
  destruct (Py.is_digit c); lia.
Qed.


(** The number of digits of a positive integer against a power of
    ten. *)
Lemma nat_digits_count (fuel : nat) (n k : Z) :
  1 <= n < 2 ^ Z.of_nat fuel -> 0 <= k ->
  Py.count_digits (Py.nat_digits fuel n) <= k <-> n < 10 ^ k.
Proof.
  revert n k. induction fuel as [|f IH]; intros n k Hn Hk.
  - simpl in Hn. lia.
  - rewrite Nat2Z.inj_succ, Z.pow_succ_r in Hn by lia.
    cbn [Py.nat_digits]. rewrite count_digits_app. cbn [Py.count_digits].
    destruct (digit_char_spec (n mod 10)) as [-> _];
      [apply Z.mod_pos_bound; lia |].
    destruct (Z.eq_dec k 0) as [-> | Hk0].
    + change (10 ^ 0) with 1.
      pose proof (count_digits_nonneg
                    (if n <? 10 then "" else Py.nat_digits f (n / 10))).
      lia.
    + replace (10 ^ k) with (10 * 10 ^ (k - 1)).
      2: { rewrite <- Z.pow_succ_r by lia. f_equal. lia. }
      assert (0 < 10 ^ (k - 1)) as Hp by (apply Z.pow_pos_nonneg; lia).
      destruct (Z.ltb_spec n 10) as [Hlt | Hge].
      * cbn [Py.count_digits]. lia.
      * assert (1 <= n / 10 < 2 ^ Z.of_nat f) as Hdiv.
        { split; [apply Z.div_le_lower_bound; lia
                 | apply Z.div_lt_upper_bound; lia]. }
        specialize (IH (n / 10) (k - 1) Hdiv ltac:(lia)).
        pose proof (Z.div_mod n 10 ltac:(lia)).
        pose proof (Z.mod_pos_bound n 10 ltac:(lia)).
        lia.
Qed.

Lemma decimal_count (n k : Z) :
  0 <= n -> 1 <= k ->
  Py.count_digits (Py.decimal n) <= k <-> n < 10 ^ k.
Proof.
  intros Hn Hk.
  assert (0 < 10 ^ k) by (apply Z.pow_pos_nonneg; lia).
  destruct (Z.eq_dec n 0) as [-> | Hne].
  - change (Py.count_digits (Py.decimal 0)) with 1. lia.
  - unfold Py.decimal. destruct (Z.ltb_spec n 0); [lia |].
    apply nat_digits_count; [|lia]. split; [lia |].
    rewrite Nat2Z.inj_succ, Z2Nat.id by apply Z.log2_nonneg.
    apply Z.log2_spec. lia.
Qed.

(** [str] prints exactly the integers below the limit in absolute
    value. *)
Lemma str_of_int_spec (n : Z) :
  Py.str_of_int n = if Z.abs n <? str_limit then Some (Py.decimal n) else None.
Proof.
  unfold Py.str_of_int. cbv zeta.
  assert (Py.count_digits (Py.decimal n) <= Py.max_str_digits
          <-> Z.abs n < str_limit) as Hc.
  { unfold str_limit. destruct (Z.lt_ge_cases n 0) as [Hneg | Hpos].
    - rewrite (decimal_neg n Hneg). cbn [Py.count_digits].
      change (Py.is_digit "-") with false. rewrite Z.abs_neq by lia.
      rewrite <- (decimal_count (- n)); [lia | lia | apply max_str_digits_pos].
    - rewrite Z.abs_eq by lia.
      apply decimal_count; [lia | apply max_str_digits_pos]. }
  destruct (Z.ltb_spec Py.max_str_digits (Py.count_digits (Py.decimal n)));
    destruct (Z.ltb_spec (Z.abs n) str_limit); try done; lia.
Qed.



(** [int(str(n)) == n] below the limit, and [int] refuses the numeral
    of a larger number. *)
Lemma int_of_decimal_nonneg (n : Z) :
  0 <= n ->
  Py.int_of_str (Py.decimal n) = if n <? str_limit then Some n else None.
Proof.
  intros Hn. destruct (decimal_nonneg n Hn) as (Hd & Hne & Hv).
  pose proof (decimal_count n Py.max_str_digits Hn max_str_digits_pos) as Hcount.
  fold str_limit in Hcount.
  unfold Py.int_of_str. rewrite strip_by_none by by apply digits_no_cspace.
  destruct (Py.decimal n) as [|c r] eqn:E; [discriminate |].
  pose proof Hd as Hd'. simpl in Hd'. apply andb_prop in Hd' as [Hc _].
  destruct (digit_is_plain c Hc) as (_ & _ & -> & -> & _).
  cbn [orb]. cbv zeta.
  destruct (Z.ltb_spec Py.max_str_digits (Py.count_digits (String c r)));
    destruct (Z.ltb_spec n str_limit); try lia; [done |].
  rewrite int_digits_digits; [by rewrite Hv | done | by left].
Qed.

End Decimal.

(** ** The version bump *)

Section Version.

Lemma version_string_parts (X Y Z : N) :
  Py.split "." (version_string X Y Z) =
  [Py.decimal (Z.of_N X); Py.decimal (Z.of_N Y); Py.decimal (Z.of_N Z)].
Proof.
  unfold version_string.
  destruct (decimal_nonneg (Z.of_N X)) as (HX & _); [lia |].
  destruct (decimal_nonneg (Z.of_N Y)) as (HY & _); [lia |].
  destruct (decimal_nonneg (Z.of_N Z)) as (HZ & _); [lia |].
  rewrite !(app_cons "." "" _), !app_empty.
  rewrite split_app_sep by by apply digits_no_dot.
  rewrite split_app_sep by by apply digits_no_dot.
  by rewrite split_no_sep by by apply digits_no_dot.
Qed.

Lemma version_string_strip (X Y Z : N) :
  Py.strip (version_string X Y Z) = version_string X Y Z.
Proof.
  apply strip_no_space. unfold version_string.
  destruct (decimal_nonneg (Z.of_N X)) as (HX & _); [lia |].
  destruct (decimal_nonneg (Z.of_N Y)) as (HY & _); [lia |].
  destruct (decimal_nonneg (Z.of_N Z)) as (HZ & _); [lia |].
  rewrite !forallb_str_app.
  rewrite (digits_no_space _ HX), (digits_no_space _ HY), (digits_no_space _ HZ).
  reflexivity.
Qed.

(** The [try] block on [X.Y.Z] goes through exactly when [Z + 1] is
    below the limit: a larger [Z] is refused by [int], and [Z + 1] at
    the limit by the f-string. *)
Lemma bumped_version_string (X Y Z : N) :
  bumped (version_string X Y Z) =
  if Z.of_N Z + 1 <? str_limit then Some (version_string X Y (Z + 1)) else None.
Proof.
  unfold bumped. rewrite version_string_parts.
  cbn [lookup list_lookup mbind option_bind].
  rewrite int_of_decimal_nonneg by lia.
  destruct (Z.ltb_spec (Z.of_N Z) str_limit) as [Hlt | Hge];
    cbn [mbind option_bind].
  - rewrite str_of_int_spec. rewrite Z.abs_eq by lia.
    destruct (Z.ltb_spec (Z.of_N Z + 1) str_limit); cbn [mbind option_bind];
      [|done].
    unfold version_string. by rewrite N2Z.inj_add.
  - destruct (Z.ltb_spec (Z.of_N Z + 1) str_limit); [lia | done].
Qed.

(** C6, as the specification states it, fails: a valid version whose
    third number is the largest that [str] prints is not bumped but
    reset, because the f-string cannot print the bumped number. *)
Lemma increment_version_valid_cex :
  ~ (forall (X Y Z : N) (text : string),
       Py.strip text = version_string X Y Z ->
       _increment_version (Some text) = Some (version_string X Y (Z + 1))).
Proof.
  intros H.
  pose proof str_limit_pos as Hpos.
  assert (Z.of_N (Z.to_N (str_limit - 1)) = str_limit - 1) as HZ
    by (rewrite Z2N.id; lia).
  specialize (H 1%N 2%N (Z.to_N (str_limit - 1))
                (version_string 1 2 (Z.to_N (str_limit - 1)))
                (version_string_strip _ _ _)).
  unfold _increment_version in H.
  rewrite version_string_strip, bumped_version_string, HZ in H.
  destruct (Z.ltb_spec (str_limit - 1 + 1) str_limit); [lia |].
  unfold version_string in H. change (Py.decimal (Z.of_N 1)) with "1" in H.
  rewrite app_cons in H. discriminate H.
Qed.

(** C6, amended.  A version file holding [X.Y.Z] (white space around
    it apart) is rewritten by the version step to [X.Y.(Z+1)], major
    and minor unchanged, as long as [Z + 1] has no more digits than
    the interpreter converts, and a second run on the file just
    written gives [X.Y.(Z+2)] as long as [Z + 2] has no more; a file
    whose bumped third number has more digits is reset to [0.1.1]. *)
Theorem increment_version_valid (X Y Z : N) (text : string) :
  Py.strip text = version_string X Y Z ->
  (Z.of_N Z + 1 < str_limit ->
   _increment_version (Some text) = Some (version_string X Y (Z + 1))) /\
  (Z.of_N Z + 2 < str_limit ->
   (_increment_version (Some text) ≫= fun written => _increment_version (Some written))
     = Some (version_string X Y (Z + 2))) /\
  (str_limit <= Z.of_N Z + 1 ->
   _increment_version (Some text) = Some "0.1.1").
Proof.
  intros Htext.
  assert (forall W, Z.of_N W + 1 < str_limit ->
            _increment_version (Some (version_string X Y W))
            = Some (version_string X Y (W + 1))) as Hrun.
  { intros W HW. unfold _increment_version.
    rewrite version_string_strip, bumped_version_string.
    by destruct (Z.ltb_spec (Z.of_N W + 1) str_limit); [|lia]. }
  assert (Z.of_N Z + 1 < str_limit ->
          _increment_version (Some text) = Some (version_string X Y (Z + 1))) as H1.
  { intros HZ. unfold _increment_version.
    rewrite Htext, bumped_version_string.
    by destruct (Z.ltb_spec (Z.of_N Z + 1) str_limit); [|lia]. }
  split; [exact H1 |]. split.
  - intros HZ. rewrite H1 by lia. cbn [mbind option_bind].
    rewrite Hrun by lia. do 2 f_equal. lia.
  - intros HZ. unfold _increment_version.
    rewrite Htext, bumped_version_string.
    by destruct (Z.ltb_spec (Z.of_N Z + 1) str_limit); [lia |].
Qed.

Lemma increment_version_valid_witness :
  _increment_version (Some "1.4.9
") = Some "1.4.10" /\
  (_increment_version (Some "1.4.9
") ≫= fun written => _increment_version (Some written)) = Some "1.4.11".
Proof.
  destruct (increment_version_valid 1 4 9 "1.4.9
" eq_refl) as (H1 & H2 & _).
  split; [apply H1 | apply H2]; by vm_compute.
Defined.




(** A missing version file counts as [0.1.0]. *)
Lemma increment_version_missing : _increment_version None = Some "0.1.1".
Proof. reflexivity. Qed.

End Version.

(** ** The configuration and the Terraform bundle *)

Section Terraform.

Implicit Types (config : gmap string cfgval) (dir : gmap string artifact).

Lemma cfg_get_missing config (key : string) (dflt : pyval) :
  config !! key = None -> cfg_get config key dflt = dflt.
Proof. intros H. unfold cfg_get. by rewrite H. Qed.

Lemma cfg_get_present config (key : string) (v : cfgval) (dflt : pyval) :
  config !! key = Some v -> cfg_get config key dflt = to_py v.
Proof. intros H. unfold cfg_get. by rewrite H. Qed.




(** Every document [variables_doc] produces takes its instance type,
    its environment and its ports from the configuration alone. *)
Lemma variables_doc_slots config (doc : variables_tf) :
  variables_doc config = Ok doc ->
  var_instance_type doc = cfg_get config "instance_type" (PyStr "t3.micro") /\
  var_environment doc = cfg_get config "environment" (PyStr "dev") /\
  var_frontend_port doc = cfg_get config "frontend_port" (PyInt 3000) /\
  var_backend_port doc = cfg_get config "backend_port" (PyInt 8000).
Proof.
  unfold variables_doc. intros H.
  destruct (str_method (cfg_get config "pipeline_name" _)) as [name|e];
    simpl in H; [|discriminate].
  destruct (str_method (cfg_get config "ami" _)) as [ami|e];
    simpl in H; [|discriminate].
  destruct (Py.contains "ubuntu" (Py.lower ami)); injection H as <-; done.
Qed.

Lemma tfvars_doc_slots config (doc : tfvars) :
  tfvars_doc config = Ok doc ->
  tfv_instance_type doc = cfg_get config "instance_type" (PyStr "t3.micro") /\
  tfv_frontend_port doc = cfg_get config "frontend_port" (PyStr "3000") /\
  tfv_backend_port doc = cfg_get config "backend_port" (PyStr "8000").
Proof.
  unfold tfvars_doc. intros H.
  destruct (str_method (cfg_get config "pipeline_name" _)) as [name|e];
    simpl in H; [|discriminate].
  destruct (str_method (cfg_get config "ami" _)) as [ami|e];
    simpl in H; [|discriminate].
  injection H as <-; done.
Qed.




(** Without an override file the default mapping is the configuration
    and its [t2.micro] is what gets written. *)
Lemma variables_instance_type_no_file :
  var_instance_type <$> variables_doc (_load_config NoFile) = Ok (PyStr "t2.micro").
Proof. vm_compute. reflexivity. Qed.

(** The ports resolved in [_create_terraform_main] follow the three
    steps: override, inferred port, fixed default. *)
Lemma resolved_ports_inferred config (analysis backend frontend : gmap string pyval)
    (b f : Z) :
  config !! "backend_port" = None -> config !! "frontend_port" = None ->
  analysis !! "backend" = Some (PyDict backend) ->
  analysis !! "frontend" = Some (PyDict frontend) ->
  backend !! "port" = Some (PyInt b) -> frontend !! "port" = Some (PyInt f) ->
  resolved_ports config analysis = Ok (b, f).
Proof.
  intros Hb Hf Hab Haf Hpb Hpf. unfold resolved_ports, getitem, dict_get.
  rewrite Hab, Haf. simpl.
  rewrite (cfg_get_missing _ _ _ Hb), (cfg_get_missing _ _ _ Hf).
  by rewrite Hpb, Hpf.
Qed.

Lemma resolved_ports_defaults config (analysis backend frontend : gmap string pyval) :
  config !! "backend_port" = None -> config !! "frontend_port" = None ->
  analysis !! "backend" = Some (PyDict backend) ->
  analysis !! "frontend" = Some (PyDict frontend) ->
  backend !! "port" = None -> frontend !! "port" = None ->
  resolved_ports config analysis = Ok (8000, 3000).
Proof.
  intros Hb Hf Hab Haf Hpb Hpf. unfold resolved_ports, getitem, dict_get.
  rewrite Hab, Haf. simpl.
  rewrite (cfg_get_missing _ _ _ Hb), (cfg_get_missing _ _ _ Hf).
  by rewrite Hpb, Hpf.
Qed.

(** The port defaults of [variables.tf] and the ports of
    [terraform.tfvars] never depend on the analysis record: the two
    functions do not receive it. *)
Lemma written_ports_from_config config (vdoc : variables_tf) (tdoc : tfvars) :
  config !! "backend_port" = None ->
  variables_doc config = Ok vdoc -> tfvars_doc config = Ok tdoc ->
  var_backend_port vdoc = PyInt 8000 /\ tfv_backend_port tdoc = PyStr "8000".
Proof.
  intros Hb Hv Ht.
  apply variables_doc_slots in Hv as (_ & _ & _ & ->).
  apply tfvars_doc_slots in Ht as (_ & _ & ->).
  by rewrite !(cfg_get_missing _ _ _ Hb).
Qed.

(** C4, the code at the failing inputs.  For the sample project, whose
    backend port is inferred as 9090, and an override file without
    port keys, [_create_terraform_main] resolves the backend port to
    9090, yet [variables.tf] declares 8000 and [terraform.tfvars] sets
    8000.  For the override [backend_port: abc] the resolution falls
    back to 8000, yet both files carry [abc]. *)
Theorem infra_files_ignore_resolved_ports :
  let analysis := analyze_project sample_tree in
  let config := _load_config (Lines ["environment: production"]) in
  let config' := _load_config (Lines ["backend_port: abc"]) in
  (resolved_ports config analysis = Ok (9090, 3000) /\
   var_backend_port <$> variables_doc config = Ok (PyInt 8000) /\
   tfv_backend_port <$> tfvars_doc config = Ok (PyStr "8000")) /\
  (resolved_ports config' analysis = Ok (8000, 3000) /\
   var_backend_port <$> variables_doc config' = Ok (PyStr "abc") /\
   tfv_backend_port <$> tfvars_doc config' = Ok (PyStr "abc")).
Proof. vm_compute. repeat split. Qed.

(** C7.  When [main.tf], [variables.tf] and [outputs.tf] all exist,
    [_ensure_terraform_infrastructure] returns without raising and
    leaves the directory, every file of it, as it was. *)
Theorem ensure_terraform_noop config (analysis : gmap string pyval) dir :
  is_Some (dir !! "main.tf") ->
  is_Some (dir !! "variables.tf") ->
  is_Some (dir !! "outputs.tf") ->
  _ensure_terraform_infrastructure config analysis (Some dir) = (Some dir, None).
Proof.
  intros Hm Hv Ho. unfold _ensure_terraform_infrastructure. simpl.
  by rewrite !bool_decide_eq_true_2.
Qed.

Lemma ensure_terraform_noop_witness :
  let dir : gmap string artifact :=
    <["outputs.tf" := Kept "# mine"]>
    (<["variables.tf" := Kept "# mine"]>
    (<["main.tf" := Kept "# mine"]> {["notes.txt" := Kept "keep"]})) in
  _ensure_terraform_infrastructure _default_config (analyze_project sample_tree)
    (Some dir) = (Some dir, None).
Proof.
  intros dir. apply ensure_terraform_noop; vm_compute; eauto.
Defined.

(** With one of the three files missing the step does write: here an
    existing [main.tf] is replaced. *)
Lemma ensure_terraform_writes :
  fst (_ensure_terraform_infrastructure _default_config
         (analyze_project sample_tree)
         (Some (<["main.tf" := Kept "# mine"]> ∅)))
    ≫= (.!! "main.tf") = Some MainTf.
Proof. vm_compute. reflexivity. Qed.

End Terraform.

(** ** The analyzer *)

Section Analyzer.

Ltac map_lookup :=
  repeat first
    [ rewrite lookup_insert_eq
    | rewrite lookup_insert_ne by discriminate
    | rewrite lookup_singleton_eq
    | rewrite lookup_singleton_ne by discriminate
    | rewrite lookup_empty ].

Lemma analyze_frontend_flag (t : frontend_tree) :
  _analyze_frontend t !! "exists" = Some (PyBool (frontend_exists t)).
Proof.
  unfold _analyze_frontend.
  destruct (frontend_exists t); simpl; [|by map_lookup].
  destruct (frontend_package_json t) as [| |[]]; try destruct (frontend_index_html t);
    by map_lookup.
Qed.

Lemma analyze_backend_flag (t : backend_tree) :
  _analyze_backend t !! "exists" = Some (PyBool (backend_exists t)).
Proof.
  unfold _analyze_backend.
  destruct (backend_exists t); simpl; [|by map_lookup].
  destruct (_ || _); [|by map_lookup].
  destruct (backend_requirements_txt t); by map_lookup.
Qed.

Lemma analyze_project_facets (t : project_tree) :
  analyze_project t !! "frontend" = Some (PyDict (_analyze_frontend (tree_frontend t))) /\
  analyze_project t !! "backend" = Some (PyDict (_analyze_backend (tree_backend t))) /\
  analyze_project t !! "infrastructure"
    = Some (PyDict (_analyze_infrastructure (tree_terraform t))) /\
  analyze_project t !! "docker" = Some (PyDict (_analyze_docker (tree_docker t))) /\
  analyze_project t !! "git" = Some (PyDict (_analyze_git (tree_git t))).
Proof. unfold analyze_project. repeat split; by map_lookup. Qed.

(** The analyzer never attaches the advisory annotation itself. *)
Lemma analyze_project_not_annotated (t : project_tree) :
  analyze_project t !! "ai_recommendations" = None.
Proof. unfold analyze_project. by map_lookup. Qed.

(** C5, as the specification states it, fails: without a frontend
    directory the frontend facet has no [port] field at all. *)
Lemma absent_facet_fields_cex :
  ~ (forall (t : project_tree) (facet : gmap string pyval) (k : string),
       analyze_project t !! "frontend" = Some (PyDict facet) ->
       facet !! "exists" = Some (PyBool false) ->
       k ∈ frontend_fields ->
       is_Some (facet !! k)).
Proof.
  intros H.
  destruct (analyze_project_facets sample_tree) as (Hf & _).
  specialize (H sample_tree _ "port" Hf).
  assert (is_Some (_analyze_frontend (tree_frontend sample_tree) !! "port")) as [v Hv].
  { apply H; [reflexivity |]. unfold frontend_fields. set_solver. }
  vm_compute in Hv. discriminate Hv.
Qed.

(** C5, amended.  In a record produced by the analyzer, a frontend or
    backend facet whose [exists] flag is false is the dictionary that
    holds the flag and nothing else: every other field is absent, and
    a [.get] with a default on it gives that default.  For the other
    facets: an infrastructure facet with a false flag holds the flag
    and the path but no file list, a version-control facet with a
    false flag holds the flag alone, and the container facet holds its
    list of Dockerfiles whatever the flag. *)
Theorem absent_facet_is_flag_only (t : project_tree) :
  (forall (name : string) (facet : gmap string pyval),
     name = "frontend" \/ name = "backend" ->
     analyze_project t !! name = Some (PyDict facet) ->
     facet !! "exists" = Some (PyBool false) ->
     facet = {["exists" := PyBool false]} /\
     forall (k : string) (d : pyval), k <> "exists" -> dict_get facet k d = d) /\
  (forall facet : gmap string pyval,
     analyze_project t !! "infrastructure" = Some (PyDict facet) ->
     facet !! "terraform_exists" = Some (PyBool false) ->
     facet = <["terraform_path" := PyStr (terraform_path (tree_terraform t))]>
               {["terraform_exists" := PyBool false]}) /\
  (forall facet : gmap string pyval,
     analyze_project t !! "git" = Some (PyDict facet) ->
     facet !! "is_git_repo" = Some (PyBool false) ->
     facet = {["is_git_repo" := PyBool false]}) /\
  (forall facet : gmap string pyval,
     analyze_project t !! "docker" = Some (PyDict facet) ->
     facet !! "dockerfiles" = Some (PyList (PyStr <$> dockerfiles (tree_docker t)))).
Proof.
  destruct (analyze_project_facets t) as (Hf & Hb & Hi & Hd & Hg).
  assert (forall (name : string) (facet : gmap string pyval),
            name = "frontend" \/ name = "backend" ->
            analyze_project t !! name = Some (PyDict facet) ->
            facet !! "exists" = Some (PyBool false) ->
            facet = {["exists" := PyBool false]}) as Hflag_only.
  { intros name facet [-> | ->] Hfacet Hflag.
    - rewrite Hf in Hfacet. injection Hfacet as <-.
      rewrite analyze_frontend_flag in Hflag. injection Hflag as Hflag.
      unfold _analyze_frontend. by rewrite Hflag.
    - rewrite Hb in Hfacet. injection Hfacet as <-.
      rewrite analyze_backend_flag in Hflag. injection Hflag as Hflag.
      unfold _analyze_backend. by rewrite Hflag. }
  split; [|split; [|split]].
  - intros name facet Hname Hfacet Hflag.
    rewrite (Hflag_only name facet Hname Hfacet Hflag).
    split; [done |]. intros k d Hk. unfold dict_get.
    by rewrite lookup_singleton_ne.
  - intros facet Hfacet Hflag. rewrite Hi in Hfacet. injection Hfacet as <-.
    unfold _analyze_infrastructure in *.
    destruct (terraform_exists (tree_terraform t)); [|done].
    revert Hflag. map_lookup. discriminate.
  - intros facet Hfacet Hflag. rewrite Hg in Hfacet. injection Hfacet as <-.
    unfold _analyze_git in *.
    destruct (git_exists (tree_git t)); [|done].
    revert Hflag.
    destruct (git_branch_stdout (tree_git t));
      [destruct (git_remote_stdout (tree_git t)) |];
      map_lookup; discriminate.
  - intros facet Hfacet. rewrite Hd in Hfacet. injection Hfacet as <-.
    unfold _analyze_docker. by map_lookup.
Qed.

Lemma absent_facet_is_flag_only_witness :
  _analyze_frontend (tree_frontend sample_tree) = {["exists" := PyBool false]} /\
  dict_get (_analyze_frontend (tree_frontend sample_tree)) "port" (PyInt 3000)
    = PyInt 3000 /\
  _analyze_git (tree_git sample_tree) = {["is_git_repo" := PyBool false]} /\
  _analyze_infrastructure (tree_terraform sample_tree)
    = <["terraform_path" := PyStr "terraform"]> {["terraform_exists" := PyBool false]}.
Proof.
  destruct (absent_facet_is_flag_only sample_tree) as (Hfb & Hi & Hg & _).
  destruct (analyze_project_facets sample_tree) as (Hf & _ & Hi' & _ & Hg').
  destruct (Hfb "frontend" _ (or_introl eq_refl) Hf eq_refl) as [Hfacet Hget].
  split; [exact Hfacet |]. split; [by apply Hget |]. split.
  - exact (Hg _ Hg' eq_refl).
  - exact (Hi _ Hi' eq_refl).
Defined.

(** A facet that is present carries its fields: the sample backend. *)
Lemma sample_backend_port :
  _analyze_backend (tree_backend sample_tree) !! "port" = Some (PyInt 9090) /\
  _analyze_backend (tree_backend sample_tree) !! "framework" = Some (PyStr "fastapi") /\
  _analyze_backend (tree_backend sample_tree) !! "dependencies"
    = Some (PyList [PyStr "fastapi==0.100.0"; PyStr "uvicorn"]).
Proof. vm_compute. repeat split. Qed.

End Analyzer.

(** ** Advisory enrichment *)

Section Enrichment.

Implicit Types (analysis enhanced : gmap string pyval) (reply : api_reply).

(** Without the explicit request the call to the service never raises. *)
Lemma call_openai_api_opportunistic reply :
  exists v, _call_openai_api reply false = Ok v.
Proof.
  unfold _call_openai_api, api_failed.
  destruct reply as [err | status text body]; [by eexists |].
  destruct (status =? 200); [destruct body; by eexists |].
  destruct (Py.str_of_int status); by eexists.
Qed.

Lemma truthy_freeform (content : string) :
  truthy (PyDict {["recommendations" := PyStr content]}) = true.
Proof.
  unfold truthy. by rewrite map_to_list_singleton.
Qed.

(** When nothing fails, both modes attach the answer. *)
Lemma enrichment_success (openai_token : option string) reply analysis
    (context : gmap string pyval) (v : pyval) (fail_on_ai_error : bool) :
  has_token openai_token = true ->
  analysis_context analysis = Ok context ->
  answer reply = Some v ->
  _ai_enhance_analysis openai_token reply analysis fail_on_ai_error
    = Ok (<["ai_recommendations" := v]> analysis).
Proof.
  intros Htok Hctx Hans. unfold _ai_enhance_analysis.
  rewrite Htok, Hctx. simpl.
  destruct reply as [err | status text body]; [discriminate |].
  simpl in Hans. unfold _call_openai_api.
  destruct (Z.eqb_spec status 200) as [-> | Hne].
  - destruct body as [err | w | content]; [discriminate | |].
    + destruct (truthy w) eqn:Hw; [|discriminate].
      injection Hans as <-. cbn -[truthy]. by rewrite Hw.
    + injection Hans as <-. cbn -[truthy]. by rewrite truthy_freeform.
  - destruct status as [|p|p]; try discriminate.
    do 8 (destruct p as [p|p|]; try discriminate). done.
Qed.

(** C3.  Every enrichment failure is fatal under an explicit request
    and harmless without one: with [fail_on_ai_error] the call raises,
    without it the call returns the record as it was.  Without the
    request the call returns in every case.  Without a credential the
    record comes back unchanged when enrichment was not requested, and
    the configuration error is raised when it was. *)
Theorem enrichment_error_policy (openai_token : option string) reply analysis :
  (enrichment_failure openai_token analysis reply ->
   (exists e, _ai_enhance_analysis openai_token reply analysis true = Raise e) /\
   _ai_enhance_analysis openai_token reply analysis false = Ok analysis) /\
  (exists enhanced,
     _ai_enhance_analysis openai_token reply analysis false = Ok enhanced) /\
  (has_token openai_token = false ->
   _ai_enhance_analysis openai_token reply analysis false = Ok analysis /\
   _ai_enhance_analysis openai_token reply analysis true
     = Raise (Exception no_token_message)).
Proof.
  assert (has_token openai_token = false ->
          _ai_enhance_analysis openai_token reply analysis false = Ok analysis /\
          _ai_enhance_analysis openai_token reply analysis true
            = Raise (Exception no_token_message)) as Hnone.
  { intros Htok. unfold _ai_enhance_analysis. by rewrite Htok. }
  split; [|split; [|exact Hnone]].
  - intros Hfail.
    destruct (has_token openai_token) eqn:Htok;
      [|destruct (Hnone eq_refl) as [-> ->]; eauto].
    unfold _ai_enhance_analysis. rewrite Htok. simpl.
    destruct (analysis_context analysis) as [context|e] eqn:Hctx;
      [|simpl; eauto].
    simpl.
    destruct Hfail as [reply Hno | reply e He | err | status text body Hne
                      | text err | text v Hv].
    + congruence.
    + congruence.
    + simpl. eauto.
    + unfold _call_openai_api.
      destruct (Z.eqb_spec status 200) as [-> | _]; [done |].
      destruct (Py.str_of_int status); simpl; eauto.
    + simpl. eauto.
    + simpl. rewrite Hv. eauto.
  - unfold _ai_enhance_analysis.
    destruct (has_token openai_token); simpl; [|eauto].
    destruct (analysis_context analysis) as [context|e]; simpl; [|eauto].
    destruct (call_openai_api_opportunistic reply) as [v ->]. simpl.
    destruct (truthy v); eauto.
Qed.

Lemma enrichment_error_policy_witness :
  let analysis := analyze_project sample_tree in
  ((exists e, _ai_enhance_analysis (Some "sk-test")
                (Response 503 "unavailable" (BodyRaises "")) analysis true = Raise e) /\
   _ai_enhance_analysis (Some "sk-test")
     (Response 503 "unavailable" (BodyRaises "")) analysis false = Ok analysis) /\
  (_ai_enhance_analysis None (PostRaises "timeout") analysis false = Ok analysis /\
   _ai_enhance_analysis None (PostRaises "timeout") analysis true
     = Raise (Exception no_token_message)).
Proof.
  intros analysis. split.
  - apply (proj1 (enrichment_error_policy (Some "sk-test")
                    (Response 503 "unavailable" (BodyRaises "")) analysis)).
    apply bad_status. lia.
  - apply (proj2 (proj2 (enrichment_error_policy None (PostRaises "timeout") analysis))).
    reflexivity.
Defined.

(** The message of the error raised for a refused request names the
    status and the body of the reply. *)
Lemma enrichment_bad_status_message analysis :
  analysis_context analysis = Ok ∅ ->
  _ai_enhance_analysis (Some "sk-test") (Response 503 "unavailable" (BodyRaises ""))
    analysis true
  = Raise (Exception "Failed to access OpenAI API: OpenAI API Error: 503 - unavailable").
Proof.
  intros H. unfold _ai_enhance_analysis. simpl. rewrite H.
  by vm_compute.
Qed.

(** C9.  Whatever enrichment returns is the record it was given or
    that record with the annotation stored under [ai_recommendations]:
    every other key keeps its value, so no field the analyzer wrote is
    altered.  On a record that carries no annotation yet, as every
    record of the analyzer, nothing is lost: each key present before
    is present after with the same value, and at most the one
    annotation key is new. *)
Theorem enrichment_preserves_record (openai_token : option string) reply
    analysis enhanced (fail_on_ai_error : bool) :
  _ai_enhance_analysis openai_token reply analysis fail_on_ai_error = Ok enhanced ->
  (enhanced = analysis \/
   exists v, enhanced = <["ai_recommendations" := v]> analysis) /\
  (forall k : string, k <> "ai_recommendations" -> enhanced !! k = analysis !! k) /\
  (analysis !! "ai_recommendations" = None ->
   (forall (k : string) (v : pyval), analysis !! k = Some v -> enhanced !! k = Some v) /\
   dom enhanced ⊆ dom analysis ∪ {["ai_recommendations"]}).
Proof.
  intros Hrun.
  assert (enhanced = analysis \/
          exists v, enhanced = <["ai_recommendations" := v]> analysis) as Hshape.
  { unfold _ai_enhance_analysis in Hrun.
    destruct (has_token openai_token); simpl in Hrun.
    - destruct (analysis_context analysis) as [context|e]; simpl in Hrun.
      + destruct (_call_openai_api reply fail_on_ai_error) as [v|e]; simpl in Hrun.
        * destruct (truthy v).
          -- injection Hrun as <-. eauto.
          -- destruct fail_on_ai_error; [discriminate |].
             injection Hrun as <-. eauto.
        * destruct fail_on_ai_error; [discriminate |].
          injection Hrun as <-. eauto.
      + destruct fail_on_ai_error; [discriminate |].
        injection Hrun as <-. eauto.
    - destruct fail_on_ai_error; [discriminate |].
      injection Hrun as <-. eauto. }
  split; [exact Hshape |].
  destruct Hshape as [-> | [w ->]].
  - split; [done |]. intros _. split; [done | set_solver].
  - split; [intros k Hk; by rewrite lookup_insert_ne |].
    intros Hnone. split.
    + intros k v Hk. rewrite lookup_insert_ne; [done |]. congruence.
    + rewrite dom_insert_L. by rewrite (comm_L (∪)).
Qed.

Lemma enrichment_preserves_record_witness :
  let analysis := analyze_project sample_tree in
  let advice := PyDict {["stages" := PyList [PyStr "lint"; PyStr "test"]]} in
  let enhanced := <["ai_recommendations" := advice]> analysis in
  (enhanced = analysis \/
   exists v, enhanced = <["ai_recommendations" := v]> analysis) /\
  (forall k : string, k <> "ai_recommendations" -> enhanced !! k = analysis !! k) /\
  (analysis !! "ai_recommendations" = None ->
   (forall (k : string) (v : pyval), analysis !! k = Some v -> enhanced !! k = Some v) /\
   dom enhanced ⊆ dom analysis ∪ {["ai_recommendations"]}).
Proof.
  intros analysis advice enhanced.
  apply (enrichment_preserves_record (Some "sk-test")
           (Response 200 "" (ContentJson advice)) analysis enhanced true).
  unfold _ai_enhance_analysis. simpl.
  assert (exists context, analysis_context analysis = Ok context) as [context ->].
  { unfold analysis_context, dict_get, analysis.
    destruct (analyze_project_facets sample_tree) as (_ & _ & -> & -> & _).
    simpl. eauto. }
  simpl. unfold advice. unfold truthy. by rewrite map_to_list_singleton.
Defined.

End Enrichment.

(** ** The QR formatting service *)

Section Qr.






(** On inputs without a plus sign the kept characters are the digits,
    and the rule of the specification holds. *)
Lemma phone_chars_no_plus (data : string) :
  Py.forallb_str (fun c => negb (Py.eqc c "+")) data = true ->
  phone_chars data = digits_of data.
Proof.
  unfold phone_chars, digits_of.
  induction data as [|c data IH]; simpl; [done |].
  intros [Hc Hd]%andb_prop. rewrite (IH Hd).
  destruct (Py.eqc c "+"); [discriminate |]. by rewrite orb_false_r.
Qed.

(** C10.  For a data type other than [email], [phone], [url] and
    [wifi], the type [text] and every unknown one included, the data
    comes back unchanged and nothing is raised. *)
Theorem other_types_pass_through (data data_type : string) :
  data_type ∉ ["email"; "phone"; "url"; "wifi"] ->
  format_data_for_qr data data_type = Ok data.
Proof.
  intros Hnot. unfold format_data_for_qr.
  repeat case_bool_decide; try done; subst; exfalso; apply Hnot; set_solver.
Qed.

Lemma other_types_pass_through_witness :
  format_data_for_qr "Hello World" "text" = Ok "Hello World" /\
  format_data_for_qr "not,validated" "WIFI" = Ok "not,validated".
Proof.
  split; apply other_types_pass_through; vm_compute;
    intros H; repeat (apply elem_of_cons in H as [H | H]; [discriminate H |]);
    by apply elem_of_nil in H.
Defined.

End Qr.

(** ** The embedding on the scenarios of the sources *)

Section Scenarios.

Example version_runs :
  _increment_version (Some "1.2.99") = Some "1.2.100" /\
  _increment_version (Some " 0.1.0
") = Some "0.1.1" /\
  _increment_version (Some "a.b.9") = Some "a.b.10" /\
  _increment_version (Some "1.2.-5") = Some "1.2.-4" /\
  _increment_version (Some "1.2.1_0") = Some "1.2.11" /\
  _increment_version (Some "1.2.x") = Some "0.1.1".
Proof. vm_compute. repeat split. Qed.

Example int_literals :
  Py.int_of_str " 42 " = Some 42 /\ Py.int_of_str "+7" = Some 7 /\
  Py.int_of_str "007" = Some 7 /\ Py.int_of_str "1__0" = None /\
  Py.int_of_str "_1" = None /\ Py.int_of_str "- 1" = None /\
  Py.int_of_str "" = None /\ Py.int_of_str "8000.5" = None.
Proof. vm_compute. repeat split. Qed.

Example str_of_ints :
  Py.str_of_int 0 = Some "0" /\ Py.str_of_int 1024 = Some "1024" /\
  Py.str_of_int (-15) = Some "-15" /\
  Py.str_of_int str_limit = None /\ Py.str_of_int (- str_limit) = None.
Proof.
  rewrite !str_of_int_spec. pose proof str_limit_pos as Hpos.
  rewrite (Z.abs_neq (- str_limit)), Z.opp_involutive, (Z.abs_eq str_limit) by lia.
  rewrite Z.ltb_irrefl. vm_compute. repeat split.
Qed.

Example loaded_config :
  let config :=
    _load_config (Lines ["# request"; ""; " environment : staging ";
                         "labels: [a, b]"; "url: http://x"; "no separator";
                         "empty: []"]) in
  config !! "environment" = Some (CStr "staging") /\
  config !! "labels" = Some (CList ["a"; "b"]) /\
  config !! "url" = Some (CStr "http://x") /\
  config !! "empty" = Some (CList [""]) /\
  config !! "no separator" = None /\
  config !! "instance_type" = None.
Proof. vm_compute. repeat split. Qed.

Example titles :
  title "qr-generator x1y" = "Qr-Generator X1Y" /\
  replace "-auto-pipeline" "" "qr-generator-auto-pipeline" = "qr-generator" /\
  replace "aa" "b" "aaaxaa" = "baxb" /\
  replace "-" " " "a-b-c" = "a b c".
Proof. vm_compute. repeat split. Qed.

Example tfvars_of_defaults :
  tfv_labels <$> tfvars_doc _default_config = Ok "ai-generated,demo" /\
  tfv_tags_project <$> tfvars_doc _default_config = Ok "Auto Generated Pipeline" /\
  tfv_environment <$> tfvars_doc _default_config = Ok (PyStr "production").
Proof. vm_compute. repeat split. Qed.

(** A bracketed [pipeline_name] makes the variables step raise after
    [main.tf] and [user_data.sh] are written. *)
Example bundle_stops_midway :
  let outcome :=
    _ensure_terraform_infrastructure (_load_config (Lines ["pipeline_name: [a]"]))
      (analyze_project sample_tree) None in
  snd outcome = Some AttributeError /\
  fst outcome ≫= (.!! "main.tf") = Some MainTf /\
  fst outcome ≫= (.!! "variables.tf") = None.
Proof. vm_compute. repeat split. Qed.

Example formatted :
  format_data_for_qr "a@b.co" "email" = Ok "mailto:a@b.co" /\
  format_data_for_qr "not-an-email" "email"
    = Raise (HTTPException 400 "Invalid email format") /\
  format_data_for_qr "a@b.c" "email"
    = Raise (HTTPException 400 "Invalid email format") /\
  format_data_for_qr "MyNet,pass123" "wifi" = Ok "WIFI:T:WPA;S:MyNet;P:pass123;;" /\
  format_data_for_qr "MyNet,pass123,BOGUS" "wifi"
    = Ok "WIFI:T:WPA;S:MyNet;P:pass123;;" /\
  format_data_for_qr "MyNet, pass123 , wep" "wifi"
    = Ok "WIFI:T:WEP;S:MyNet;P:pass123;;" /\
  format_data_for_qr "MyNet" "wifi"
    = Raise (HTTPException 400 "WiFi format: SSID,Password,Security") /\
  format_data_for_qr "example.com" "url" = Ok "https://example.com" /\
  format_data_for_qr "https://example.com" "url" = Ok "https://example.com" /\
  format_data_for_qr "http://.x" "url"
    = Raise (HTTPException 400 "Invalid URL format") /\
  format_data_for_qr "(555) 123-4567" "phone" = Ok "tel:5551234567" /\
  format_data_for_qr "123" "phone"
    = Raise (HTTPException 400 "Invalid phone number") /\
  format_data_for_qr "+123456" "phone" = Ok "tel:+123456".
Proof. vm_compute. repeat split. Qed.

(** A token of blanks only is no token: the run is not in AI mode. *)
Example blank_token :
  ai_mode_requested (Some "   ") = false /\ ai_mode_requested (Some " sk-1 ") = true /\
  ai_mode_requested None = false.
Proof. vm_compute. repeat split. Qed.

End Scenarios.

(** * Further properties of the code *)

(** ** The analyzer and the workflow jobs *)

Section Jobs.

Implicit Types (analysis : gmap string pyval) (config : gmap string cfgval).

Ltac map_lookup :=
  repeat first
    [ rewrite lookup_insert_eq
    | rewrite lookup_insert_ne by discriminate
    | rewrite lookup_singleton_eq
    | rewrite lookup_singleton_ne by discriminate
    | rewrite lookup_empty ].

(** [_detect_port_from_files]: files that cannot be read or show no
    pattern are passed over and the first port found is the answer;
    when no file shows a port the answer is the default. *)
Theorem detect_port_first_match (before after : list scanned) (port dflt : Z) :
  Forall (fun f => f = ScanFails \/ f = Scan None) before ->
  _detect_port_from_files (before ++ Scan (Some port) :: after) dflt = port /\
  _detect_port_from_files before dflt = dflt.
Proof.
  induction 1 as [|f before [-> | ->] _ [IH1 IH2]]; simpl; auto.
Qed.

Lemma detect_port_first_match_witness :
  _detect_port_from_files
    ([ScanFails; Scan None] ++ Scan (Some 9090) :: [Scan (Some 5000)]) 8000 = 9090 /\
  _detect_port_from_files [ScanFails; Scan None] 8000 = 8000.
Proof.
  apply detect_port_first_match.
  constructor; [by left | constructor; [by right | constructor]].
Defined.

(** [_analyze_backend]: a backend facet that names a language names
    Python and carries the framework, the three commands and an
    integer port, so the test job can index them. *)
Theorem backend_facet_commands (t : backend_tree) (v : pyval) :
  _analyze_backend t !! "language" = Some v ->
  v = PyStr "python" /\
  _analyze_backend t !! "exists" = Some (PyBool true) /\
  _analyze_backend t !! "install_command" = Some (PyStr "pip install -r requirements.txt") /\
  _analyze_backend t !! "lint_command" = Some (PyStr "flake8") /\
  _analyze_backend t !! "test_command" = Some (PyStr "pytest") /\
  _analyze_backend t !! "framework"
    = Some (PyStr (_detect_python_framework (backend_main_py t))) /\
  _analyze_backend t !! "port"
    = Some (PyInt (_detect_port_from_files (backend_py_files t) 8000)).
Proof.
  unfold _analyze_backend.
  destruct (backend_exists t); simpl; [|map_lookup; discriminate].
  destruct (_ || _); [|map_lookup; discriminate].
  destruct (backend_requirements_txt t); map_lookup;
    intros [= <-]; by repeat split.
Qed.

Lemma backend_facet_commands_witness :
  _analyze_backend (tree_backend sample_tree) !! "port" = Some (PyInt 9090) /\
  _analyze_backend (tree_backend sample_tree) !! "test_command" = Some (PyStr "pytest").
Proof.
  destruct (backend_facet_commands (tree_backend sample_tree) (PyStr "python"))
    as (_ & _ & _ & _ & Ht & _ & Hp).
  - vm_compute. reflexivity.
  - split; [exact Hp | exact Ht].
Defined.

Lemma validation_job_on_analysis (t : project_tree) :
  _create_validation_job (analyze_project t) =
  Ok {| job_name := "Validate Code and Infrastructure";
        job_needs := None; job_if := None; job_env := [];
        job_steps :=
          if terraform_exists (tree_terraform t)
          then validation_steps ++ terraform_validation_steps
          else validation_steps |}.
Proof.
  unfold _create_validation_job, getitem.
  destruct (analyze_project_facets t) as (_ & _ & -> & _).
  cbn [mbind result_bind subscript]. unfold getitem, _analyze_infrastructure.
  destruct (terraform_exists (tree_terraform t)); map_lookup; reflexivity.
Qed.

Lemma backend_steps_on_analysis (t : project_tree) :
  backend_steps (analyze_project t) =
  Ok (if backend_exists (tree_backend t)
         && (bool_decide (is_Some (backend_requirements_txt (tree_backend t)))
             || bool_decide (is_Some (backend_main_py (tree_backend t))))
      then backend_test_steps (PyStr "pip install -r requirements.txt")
             (PyStr "flake8") (PyStr "pytest")
      else []).
Proof.
  unfold backend_steps, getitem.
  destruct (analyze_project_facets t) as (_ & -> & _).
  cbn [mbind result_bind subscript as_dict]. unfold getitem, dict_get.
  rewrite analyze_backend_flag.
  destruct (backend_exists (tree_backend t)) eqn:He; cbn [truthy andb]; [|done].
  destruct (_ || _) eqn:Hpy.
  - unfold _analyze_backend. rewrite He, Hpy. simpl.
    destruct (backend_requirements_txt (tree_backend t)); map_lookup;
      reflexivity.
  - unfold _analyze_backend. rewrite He, Hpy. simpl. map_lookup. reflexivity.
Qed.

Lemma frontend_steps_on_analysis (t : project_tree) :
  frontend_steps (analyze_project t) =
  if negb (frontend_exists (tree_frontend t)) then Ok []
  else match frontend_package_json (tree_frontend t) with
       | PkgData (PyDict _) =>
           Ok (frontend_test_steps (PyStr "npm install") (PyStr "npm run lint")
                 (PyStr "npm test"))
       | PkgData _ => Raise (KeyError "install_command")
       | _ => Ok [frontend_static_step]
       end.
Proof.
  unfold frontend_steps, getitem.
  destruct (analyze_project_facets t) as (-> & _).
  cbn [mbind result_bind subscript as_dict]. unfold getitem, dict_get.
  rewrite analyze_frontend_flag.
  unfold _analyze_frontend.
  destruct (frontend_exists (tree_frontend t)) eqn:He; cbn [truthy negb]; [|done].
  destruct (frontend_package_json (tree_frontend t)) as [| |[]];
    try destruct (frontend_index_html (tree_frontend t));
    map_lookup; reflexivity.
Qed.

(** [_create_test_job] on the record of the analyzer: it raises
    [KeyError] exactly when [package.json] parsed to something other
    than an object (the framework is set before the failing [.get]);
    otherwise the job holds the checkout step, the Python steps when a
    Python backend was found, and for an existing frontend the Node
    steps or the single static step. *)
Lemma test_job_on_analysis (t : project_tree) :
  _create_test_job (analyze_project t) =
  if manifest_not_object (tree_frontend t) then Raise (KeyError "install_command")
  else
    Ok {| job_name := "Run Tests";
          job_needs := Some (PyStr "validate"); job_if := None; job_env := [];
          job_steps :=
            checkout_steps
            ++ (if backend_exists (tree_backend t)
                   && (bool_decide (is_Some (backend_requirements_txt (tree_backend t)))
                       || bool_decide (is_Some (backend_main_py (tree_backend t))))
                then backend_test_steps (PyStr "pip install -r requirements.txt")
                       (PyStr "flake8") (PyStr "pytest")
                else [])
            ++ (if negb (frontend_exists (tree_frontend t)) then []
                else match frontend_package_json (tree_frontend t) with
                     | PkgData _ =>
                         frontend_test_steps (PyStr "npm install")
                           (PyStr "npm run lint") (PyStr "npm test")
                     | _ => [frontend_static_step]
                     end) |}.
Proof.
  unfold _create_test_job, manifest_not_object.
  rewrite backend_steps_on_analysis, frontend_steps_on_analysis.
  cbn [mbind result_bind].
  destruct (frontend_exists (tree_frontend t)); [|reflexivity].
  destruct (frontend_package_json (tree_frontend t)) as [| |[]]; reflexivity.
Qed.

Lemma backend_steps_shape (analysis : gmap string pyval) (steps : list step) :
  backend_steps analysis = Ok steps ->
  steps = [] \/ exists i l c, steps = backend_test_steps i l c.
Proof.
  unfold backend_steps. intros H.
  destruct (getitem analysis "backend") as [b|]; [|discriminate].
  cbn [mbind result_bind] in H.
  destruct (subscript b "exists") as [e|]; [|discriminate].
  cbn [mbind result_bind] in H.
  destruct (truthy e); [|injection H as <-; by left].
  destruct (as_dict b) as [facet|]; [|discriminate].
  cbn [mbind result_bind] in H.
  destruct (eq_str _ _); [|injection H as <-; by left].
  destruct (getitem facet "install_command") as [i|]; [|discriminate].
  destruct (getitem facet "lint_command") as [l|]; [|discriminate].
  destruct (getitem facet "test_command") as [c|]; [|discriminate].
  cbn [mbind result_bind] in H. injection H as <-. right. eauto.
Qed.

Lemma frontend_steps_shape (analysis : gmap string pyval) (steps : list step) :
  frontend_steps analysis = Ok steps ->
  steps = [] \/ steps = [frontend_static_step] \/
  exists i l c, steps = frontend_test_steps i l c.
Proof.
  unfold frontend_steps. intros H.
  destruct (getitem analysis "frontend") as [b|]; [|discriminate].
  cbn [mbind result_bind] in H.
  destruct (subscript b "exists") as [e|]; [|discriminate].
  cbn [mbind result_bind] in H.
  destruct (truthy e); [|injection H as <-; by left].
  destruct (as_dict b) as [facet|]; [|discriminate].
  cbn [mbind result_bind] in H.
  destruct (eq_str _ _); [|injection H as <-; right; by left].
  destruct (getitem facet "install_command") as [i|]; [|discriminate].
  destruct (getitem facet "lint_command") as [l|]; [|discriminate].
  destruct (getitem facet "test_command") as [c|]; [|discriminate].
  cbn [mbind result_bind] in H. injection H as <-. right. right. eauto.
Qed.

(** [_create_test_job]: in every job it returns, for any record, a step
    continues on error exactly when it is a lint or a test step; the
    checkout, set-up and install steps stop the job when they fail. *)
Theorem test_job_continue_on_error (analysis : gmap string pyval) (j : job) (s : step) :
  _create_test_job analysis = Ok j ->
  s ∈ job_steps j ->
  step_continue_on_error s = lint_or_test s.
Proof.
  unfold _create_test_job. intros Hj Hs.
  destruct (backend_steps analysis) as [bs|e] eqn:Hb; [|discriminate].
  destruct (frontend_steps analysis) as [fs|e] eqn:Hf; [|discriminate].
  cbn [mbind result_bind] in Hj. injection Hj as <-. cbn [job_steps] in Hs.
  apply backend_steps_shape in Hb. apply frontend_steps_shape in Hf.
  change (s ∈ checkout_steps ++ bs ++ fs) in Hs.
  apply elem_of_app in Hs as [Hs | Hs]; [|apply elem_of_app in Hs as [Hs | Hs]].
  - unfold checkout_steps in Hs. apply list_elem_of_singleton in Hs as ->. reflexivity.
  - destruct Hb as [-> | (i & l & c & ->)]; [by apply elem_of_nil in Hs |].
    unfold backend_test_steps in Hs.
    repeat (apply elem_of_cons in Hs as [-> | Hs]; [reflexivity |]).
    by apply elem_of_nil in Hs.
  - destruct Hf as [-> | [-> | (i & l & c & ->)]].
    + by apply elem_of_nil in Hs.
    + apply list_elem_of_singleton in Hs as ->. reflexivity.
    + unfold frontend_test_steps in Hs.
      repeat (apply elem_of_cons in Hs as [-> | Hs]; [reflexivity |]).
      by apply elem_of_nil in Hs.
Qed.

(** Building the CI workflow for a record of the analyzer fails in two
    cases only: with [KeyError] for a [package.json] that is not an
    object, and otherwise with [AttributeError] when
    [email_notification] is a bracketed list. *)
Theorem workflow_failures (config : gmap string cfgval) (t : project_tree) :
  (manifest_not_object (tree_frontend t) = true ->
   ci_cd_workflow config (analyze_project t) = Raise (KeyError "install_command")) /\
  (manifest_not_object (tree_frontend t) = false ->
   (forall l, config !! "email_notification" = Some (CList l) ->
      ci_cd_workflow config (analyze_project t) = Raise AttributeError) /\
   ((forall l, config !! "email_notification" <> Some (CList l)) ->
      exists w, ci_cd_workflow config (analyze_project t) = Ok w)).
Proof.
  unfold ci_cd_workflow.
  rewrite validation_job_on_analysis, test_job_on_analysis.
  cbn [mbind result_bind].
  split; [intros ->; reflexivity |]. intros ->. cbn [mbind result_bind].
  unfold _create_deploy_job, cfg_get. split.
  - intros l ->. reflexivity.
  - intros Hnl. destruct (config !! "email_notification") as [[s|l]|];
      [| by destruct (Hnl l) |]; cbn; eauto.
Qed.

(** [_create_deploy_job]: the mail step is the last step exactly when
    the configured flag is [true] in any letter case, and it is
    absent when the key is missing; the job is tied to the main
    branch. *)
Theorem deploy_job_notification (config : gmap string cfgval) (j : job) :
  _create_deploy_job config = Ok j ->
  (exists flag, cfg_get config "email_notification" (PyStr "false") = PyStr flag /\
     job_steps j =
       if bool_decide (Py.lower flag = "true")
       then deploy_steps ++
            [notification_step (cfg_get config "email_recipient" (PyStr "demo@example.com"))]
       else deploy_steps) /\
  (config !! "email_notification" = None -> job_steps j = deploy_steps) /\
  job_if j = Some "github.ref == 'refs/heads/main'".
Proof.
  unfold _create_deploy_job. intros H.
  destruct (cfg_get config "email_notification" (PyStr "false")) as [| | | |flag| |] eqn:E;
    try discriminate.
  cbn in H. injection H as <-. cbn. split; [eauto|]. split; [|done].
  intros Hnone. unfold cfg_get in E. rewrite Hnone in E. injection E as <-.
  reflexivity.
Qed.

Lemma test_job_continue_on_error_witness :
  Forall (fun s => step_continue_on_error s = lint_or_test s)
    (checkout_steps
       ++ backend_test_steps (PyStr "pip install -r requirements.txt")
            (PyStr "flake8") (PyStr "pytest")).
Proof.
  apply Forall_forall. intros s Hs.
  eapply (test_job_continue_on_error (analyze_project sample_tree) _ s).
  - rewrite test_job_on_analysis. reflexivity.
  - cbn. cbn in Hs. exact Hs.
Defined.

Lemma workflow_failures_witness :
  exists w, ci_cd_workflow _default_config (analyze_project sample_tree) = Ok w.
Proof.
  apply (proj2 (workflow_failures _default_config sample_tree)).
  - reflexivity.
  - intros l. vm_compute. discriminate.
Defined.

Lemma deploy_job_notification_witness :
  exists j, _create_deploy_job (_load_config (Lines ["email_notification: TRUE"])) = Ok j /\
    job_steps j = deploy_steps ++ [notification_step (PyStr "demo@example.com")].
Proof.
  destruct (_create_deploy_job (_load_config (Lines ["email_notification: TRUE"])))
    as [j|e] eqn:E; [|vm_compute in E; discriminate E].
  exists j. split; [done |].
  destruct (deploy_job_notification _ j E) as ((flag & Hflag & ->) & _).
  vm_compute in Hflag. injection Hflag as <-. reflexivity.
Defined.

End Jobs.

(** ** The Terraform bundle, further *)

Section Bundle.

Implicit Types (config : gmap string cfgval) (analysis : gmap string pyval).

Lemma docs_raise_together config :
  (is_list (config !! "pipeline_name") || is_list (config !! "ami") = true ->
   variables_doc config = Raise AttributeError) /\
  (is_list (config !! "pipeline_name") || is_list (config !! "ami") = false ->
   exists v t, variables_doc config = Ok v /\ tfvars_doc config = Ok t).
Proof.
  unfold variables_doc, tfvars_doc, cfg_get.
  destruct (config !! "pipeline_name") as [[n|l]|];
    destruct (config !! "ami") as [[a|l']|]; cbn; split; intros H;
    try discriminate H; try reflexivity;
    repeat match goal with |- context [if ?b then _ else _] => destruct b end;
    eauto.
Qed.

(** [_ensure_terraform_infrastructure] when the three files are not
    all there.  If resolving the ports raises, the directory has been
    made and nothing is written.  If [pipeline_name] or [ami] is a
    bracketed list, [main.tf] and [user_data.sh] are written and stay,
    and the step raises [AttributeError] before [variables.tf].
    Otherwise the six files of the bundle are written and every other
    file of the directory is as before. *)
Theorem ensure_terraform_outcome config analysis
    (terraform : option (gmap string artifact)) :
  bundle_present terraform = false ->
  let dir0 := default ∅ terraform in
  match resolved_ports config analysis with
  | Raise e =>
      _ensure_terraform_infrastructure config analysis terraform = (Some dir0, Some e)
  | Ok _ =>
      if is_list (config !! "pipeline_name") || is_list (config !! "ami") then
        _ensure_terraform_infrastructure config analysis terraform
        = (Some (<["user_data.sh" := UserDataSh]> (<["main.tf" := MainTf]> dir0)),
           Some AttributeError)
      else
        exists dir',
          _ensure_terraform_infrastructure config analysis terraform = (Some dir', None) /\
          (forall name, name ∈ bundle_files -> is_Some (dir' !! name)) /\
          (forall name, name ∉ bundle_files -> dir' !! name = dir0 !! name) /\
          dir' !! "main.tf" = Some MainTf /\ dir' !! "outputs.tf" = Some OutputsTf
  end.
Proof.
  intros Hp dir0. unfold _ensure_terraform_infrastructure.
  unfold bundle_present in Hp. rewrite Hp. fold dir0.
  unfold _create_terraform_main.
  destruct (resolved_ports config analysis) as [ports|e]; [|reflexivity].
  cbn [mbind result_bind].
  destruct (docs_raise_together config) as [Hraise Hok].
  destruct (is_list (config !! "pipeline_name") || is_list (config !! "ami")).
  - unfold _create_terraform_variables. rewrite (Hraise eq_refl). reflexivity.
  - destruct (Hok eq_refl) as (v & t & Hv & Ht).
    unfold _create_terraform_variables, _create_terraform_outputs,
      _create_terraform_tfvars.
    rewrite Hv. cbn [mbind result_bind]. rewrite Ht. cbn [mbind result_bind].
    eexists. split; [reflexivity |]. split; [|split; [|split]].
    + intros name Hn. unfold bundle_files in Hn.
      repeat (apply elem_of_cons in Hn as [-> | Hn];
              [repeat (rewrite lookup_insert_ne by discriminate);
               rewrite lookup_insert_eq; by eexists |]).
      by apply elem_of_nil in Hn.
    + intros name Hn.
      rewrite !lookup_insert_ne; [done | ..];
        intros <-; apply Hn; unfold bundle_files; set_solver.
    + by rewrite !lookup_insert_ne, lookup_insert_eq by discriminate.
    + by rewrite !lookup_insert_ne, lookup_insert_eq by discriminate.
Qed.

(** With the three files there the step writes nothing. *)
Lemma ensure_terraform_present config analysis
    (terraform : option (gmap string artifact)) :
  bundle_present terraform = true ->
  _ensure_terraform_infrastructure config analysis terraform = (terraform, None).
Proof.
  intros Hp. unfold _ensure_terraform_infrastructure, bundle_present in *.
  by rewrite Hp.
Qed.

(** A step that did not raise leaves the three files. *)
Lemma ensure_terraform_written config analysis
    (terraform after : option (gmap string artifact)) :
  _ensure_terraform_infrastructure config analysis terraform = (after, None) ->
  bundle_present after = true.
Proof.
  intros H. destruct (bundle_present terraform) eqn:Hb.
  - rewrite ensure_terraform_present in H by done. by injection H as <-.
  - unfold _ensure_terraform_infrastructure, bundle_present in *.
    rewrite Hb in H.
    unfold _create_terraform_main, _create_terraform_variables,
      _create_terraform_outputs, _create_terraform_tfvars in H.
    destruct (resolved_ports config analysis); [|discriminate].
    cbn [mbind result_bind] in H.
    destruct (variables_doc config); [|discriminate].
    cbn [mbind result_bind] in H.
    destruct (tfvars_doc config); [|discriminate].
    cbn [mbind result_bind] in H. injection H as <-. cbn [mbind option_bind].
    rewrite !bool_decide_eq_true_2; [done | ..];
      repeat (rewrite lookup_insert_ne by discriminate);
      rewrite lookup_insert_eq; by eexists.
Qed.

(** A call of [_ensure_terraform_infrastructure] that did not raise
    leaves a directory on which every later call, with whatever
    configuration and record, writes nothing. *)
Theorem ensure_terraform_twice config analysis config' analysis'
    (terraform after : option (gmap string artifact)) :
  _ensure_terraform_infrastructure config analysis terraform = (after, None) ->
  _ensure_terraform_infrastructure config' analysis' after = (after, None).
Proof.
  intros H. apply ensure_terraform_present.
  by apply (ensure_terraform_written config analysis terraform).
Qed.

Lemma ensure_terraform_outcome_witness :
  _ensure_terraform_infrastructure (_load_config (Lines ["ami: [a, b]"]))
    (analyze_project sample_tree) (Some {["notes.txt" := Kept "keep"]})
  = (Some (<["user_data.sh" := UserDataSh]>
            (<["main.tf" := MainTf]> {["notes.txt" := Kept "keep"]})),
     Some AttributeError).
Proof.
  pose proof (ensure_terraform_outcome (_load_config (Lines ["ami: [a, b]"]))
                (analyze_project sample_tree) (Some {["notes.txt" := Kept "keep"]})) as H.
  assert (bundle_present (Some ({["notes.txt" := Kept "keep"]} : gmap string artifact))
          = false) as Hp by (vm_compute; reflexivity).
  specialize (H Hp). cbv zeta in H.
  assert (resolved_ports (_load_config (Lines ["ami: [a, b]"]))
            (analyze_project sample_tree) = Ok (9090, 3000)) as Hports
    by (vm_compute; reflexivity).
  rewrite Hports in H.
  assert (is_list (_load_config (Lines ["ami: [a, b]"]) !! "pipeline_name")
          || is_list (_load_config (Lines ["ami: [a, b]"]) !! "ami") = true) as Hl
    by (vm_compute; reflexivity).
  rewrite Hl in H. exact H.
Defined.

Lemma ensure_terraform_twice_witness :
  let dir : gmap string artifact :=
    <["outputs.tf" := Kept "# mine"]>
    (<["variables.tf" := Kept "# mine"]> {["main.tf" := Kept "# mine"]}) in
  _ensure_terraform_infrastructure (_load_config (Lines ["ami: [a, b]"]))
    (analyze_project sample_tree) (Some dir) = (Some dir, None).
Proof.
  intros dir.
  apply (ensure_terraform_twice _default_config ∅ _ _ (Some dir)).
  apply ensure_terraform_present. vm_compute. reflexivity.
Defined.

End Bundle.

(** ** The version step, further *)

Section VersionRuns.

Lemma rstrip_by_snoc (p : ascii -> bool) (a : string) (d : ascii) :
  p d = false -> Py.rstrip_by p (a +:+ String d "") = a +:+ String d "".
Proof.
  intros Hd. induction a as [|c a IH].
  - rewrite app_empty. simpl. by rewrite Hd.
  - rewrite app_cons. simpl. rewrite IH, is_empty_app_cons.
    by rewrite andb_false_r.
Qed.

(** A text whose first and last characters are outside the class is
    left as it is. *)
Lemma strip_by_ends (p : ascii -> bool) (c d : ascii) (r a : string) :
  String c r = a +:+ String d "" -> p c = false -> p d = false ->
  Py.strip_by p (String c r) = String c r.
Proof.
  intros Hs Hc Hd. unfold Py.strip_by. simpl Py.lstrip_by. rewrite Hc.
  rewrite Hs. by apply rstrip_by_snoc.
Qed.

(** What stripping leaves does not begin with a character of the
    class. *)
Lemma strip_by_head (p : ascii -> bool) (s : string) (c : ascii) (r : string) :
  Py.strip_by p s = String c r -> p c = false.
Proof.
  unfold Py.strip_by.
  assert (forall t, Py.lstrip_by p t = "" \/
            exists x y, Py.lstrip_by p t = String x y /\ p x = false) as Hl.
  { induction t as [|x t IH]; simpl; [by left |].
    destruct (p x) eqn:Hx; [done | right; eauto]. }
  destruct (Hl s) as [-> | (x & y & -> & Hx)]; [discriminate |].
  simpl. destruct (p x && _); [discriminate |]. by intros [= <- _].
Qed.

Lemma split_nonempty (sep : ascii) (s : string) : Py.split sep s <> [].
Proof.
  destruct s as [|c s]; simpl; [done |].
  destruct (Py.eqc c sep); [done |]. by destruct (Py.split sep s).
Qed.

(** No part of a split holds the separator. *)
Lemma split_parts_no_sep (sep : ascii) (s x : string) :
  x ∈ Py.split sep s ->
  Py.forallb_str (fun c => negb (Py.eqc c sep)) x = true.
Proof.
  revert x. induction s as [|c s IH]; intros x; simpl.
  - by intros ->%list_elem_of_singleton.
  - destruct (Py.eqc c sep) eqn:Hc.
    + intros [-> | Hx]%elem_of_cons; [done | by apply IH].
    + destruct (Py.split sep s) as [|h t] eqn:E; [by destruct (split_nonempty sep s) |].
      intros [-> | Hx]%elem_of_cons.
      * simpl. rewrite Hc. simpl. apply IH. by left.
      * apply IH. by right.
Qed.

(** The first part of a split is empty or begins as the text does. *)
Lemma split_head (sep : ascii) (s h : string) (t : list string) :
  Py.split sep s = h :: t ->
  h = "" \/ exists c r r', s = String c r' /\ h = String c r.
Proof.
  destruct s as [|c s]; simpl; [intros [= <- _]; by left |].
  destruct (Py.eqc c sep); [intros [= <- _]; by left |].
  destruct (Py.split sep s); intros [= <- _]; right; eauto.
Qed.

Lemma nat_digits_last (fuel : nat) (n : Z) :
  0 <= n -> exists a d,
    Py.nat_digits (S fuel) n = a +:+ String d "" /\ Py.is_digit d = true.
Proof.
  intros Hn. cbn [Py.nat_digits]. do 2 eexists. split; [reflexivity |].
  apply digit_char_spec, Z.mod_pos_bound. lia.
Qed.

(** The numeral of an integer ends with a digit and holds no dot. *)
Lemma decimal_shape (n : Z) :
  (exists a d, Py.decimal n = a +:+ String d "" /\ Py.is_digit d = true) /\
  Py.forallb_str (fun c => negb (Py.eqc c ".")) (Py.decimal n) = true.
Proof.
  destruct (Z.lt_ge_cases n 0) as [Hneg | Hpos].
  - rewrite (decimal_neg n Hneg).
    destruct (decimal_nonneg (- n)) as (Hd & _); [lia |].
    split.
    + unfold Py.decimal. destruct (Z.ltb_spec (- n) 0); [lia |].
      destruct (nat_digits_last (Z.to_nat (Z.log2 (- n))) (- n)) as (a & d & -> & Hdig);
        [lia |].
      exists (String "-" a), d. by rewrite app_cons.
    + simpl. by apply digits_no_dot.
  - destruct (decimal_nonneg n Hpos) as (Hd & _).
    split; [|by apply digits_no_dot].
    unfold Py.decimal. destruct (Z.ltb_spec n 0); [lia |].
    by apply nat_digits_last.
Qed.

(** [int(str(n)) == n] for every integer that [str] prints. *)
Lemma int_of_decimal (n : Z) :
  Z.abs n < str_limit -> Py.int_of_str (Py.decimal n) = Some n.
Proof.
  intros Hlim.
  destruct (Z.lt_ge_cases n 0) as [Hneg | Hpos].
  2: { rewrite int_of_decimal_nonneg by done.
       by destruct (Z.ltb_spec n str_limit); [|lia]. }
  destruct (decimal_shape n) as ((a & d & Ha & Hd) & _).
  rewrite (decimal_neg n Hneg) in *.
  destruct (decimal_nonneg (- n)) as (Hdig & Hne & Hv); [lia |].
  pose proof (proj2 (decimal_count (- n) Py.max_str_digits ltac:(lia)
                       max_str_digits_pos)) as Hcount.
  fold str_limit in Hcount.
  unfold Py.int_of_str.
  rewrite (strip_by_ends _ _ d _ a Ha); [| by vm_compute |].
  - replace (Py.eqc "-" "-") with true by (by vm_compute).
    cbn [orb]. cbv zeta.
    destruct (Z.ltb_spec Py.max_str_digits (Py.count_digits (Py.decimal (- n))));
      [lia |].
    rewrite int_digits_digits by auto. cbn. f_equal. rewrite Hv. lia.
  - by destruct (digit_is_plain d Hd) as (_ & _ & _ & _ & ->).
Qed.

(** A run on a version the step wrote before bumps it, until the
    bumped number reaches the limit. *)
Lemma increment_version_rerun (p0 p1 : string) (n : Z) :
  Py.forallb_str (fun c => negb (Py.eqc c ".")) p0 = true ->
  Py.forallb_str (fun c => negb (Py.eqc c ".")) p1 = true ->
  (p0 = "" \/ exists c r, p0 = String c r /\ Py.is_space c = false) ->
  Z.abs n < str_limit ->
  _increment_version (Some (p0 +:+ "." +:+ p1 +:+ "." +:+ Py.decimal n))
  = Some (if n + 1 <? str_limit
          then p0 +:+ "." +:+ p1 +:+ "." +:+ Py.decimal (n + 1)
          else "0.1.1").
Proof.
  intros H0 H1 Hhead Hn.
  destruct (decimal_shape n) as ((a & d & Ha & Hd) & Hnodot).
  assert (Py.strip (p0 +:+ "." +:+ p1 +:+ "." +:+ Py.decimal n)
          = p0 +:+ "." +:+ p1 +:+ "." +:+ Py.decimal n) as Hstrip.
  { assert (exists c r, p0 +:+ "." +:+ p1 +:+ "." +:+ Py.decimal n = String c r
                        /\ Py.is_space c = false) as (c & r & Hw & Hc).
    { destruct Hhead as [-> | (c & r & -> & Hc)].
      - rewrite app_empty, (app_cons "." "" _), app_empty. by do 2 eexists.
      - rewrite app_cons. by do 2 eexists. }
    rewrite Hw. unfold Py.strip. apply (strip_by_ends _ c d r
      (p0 +:+ "." +:+ p1 +:+ "." +:+ a)).
    - rewrite <- Hw, Ha. by rewrite !append_assoc.
    - exact Hc.
    - by destruct (digit_is_plain d Hd) as (-> & _). }
  unfold _increment_version. rewrite Hstrip. unfold bumped.
  rewrite !(app_cons "." "" _), !app_empty.
  rewrite split_app_sep by done. rewrite split_app_sep by done.
  rewrite split_no_sep by done.
  cbn [lookup list_lookup mbind option_bind].
  rewrite int_of_decimal by done. cbn [mbind option_bind].
  rewrite str_of_int_spec.
  destruct (Z.ltb_spec (Z.abs (n + 1)) str_limit);
    destruct (Z.ltb_spec (n + 1) str_limit); try lia; done.
Qed.

(** A run more is the version step on what the runs before left. *)
Lemma repeated_runs_last (k : nat) (version_file : option string) :
  repeated_runs (S k) version_file
  = _increment_version (repeated_runs k version_file).
Proof.
  revert version_file. induction k as [|k IH]; intros version_file; [done |].
  change (repeated_runs (S (S k)) version_file)
    with (repeated_runs (S k) (_increment_version version_file)).
  by rewrite IH.
Qed.

(** [_increment_version]: whatever the version file holds, and also
    when it is missing, the first run writes a version that every
    later run bumps by one, the first two parts never changing, for
    as long as the third number stays below the first one that the
    interpreter does not print; the run that would reach that number
    resets the file to [0.1.1]. *)
Theorem version_settles (version_file : option string) :
  exists (p0 p1 : string) (n : Z),
    n < str_limit /\
    forall k : nat,
      (n + Z.of_nat k < str_limit ->
       repeated_runs (S k) version_file
       = Some (p0 +:+ "." +:+ p1 +:+ "." +:+ Py.decimal (n + Z.of_nat k))) /\
      (n + Z.of_nat k = str_limit ->
       repeated_runs (S k) version_file = Some "0.1.1").
Proof.
  pose proof str_limit_pos as Hlimit.
  assert (forall p0 p1 n,
            Py.forallb_str (fun c => negb (Py.eqc c ".")) p0 = true ->
            Py.forallb_str (fun c => negb (Py.eqc c ".")) p1 = true ->
            (p0 = "" \/ exists c r, p0 = String c r /\ Py.is_space c = false) ->
            forall k, - str_limit < n -> n + Z.of_nat k < str_limit ->
              repeated_runs k (Some (p0 +:+ "." +:+ p1 +:+ "." +:+ Py.decimal n))
              = Some (p0 +:+ "." +:+ p1 +:+ "." +:+ Py.decimal (n + Z.of_nat k)))
    as Hiter.
  { intros p0 p1 n H0 H1 Hh k. revert n.
    induction k as [|k IH]; intros n Hlow Hup; simpl repeated_runs.
    - by rewrite Z.add_0_r.
    - rewrite increment_version_rerun by (done || lia).
      destruct (Z.ltb_spec (n + 1) str_limit); [|lia].
      rewrite IH by lia.
      by replace (n + 1 + Z.of_nat k) with (n + Z.of_nat (S k)) by lia. }
  assert (forall s, (s = "" \/ exists c r, s = String c r /\ Py.is_space c = false) ->
            exists p0 p1 n,
              (match bumped s with Some v => v | None => "0.1.1" end)
              = p0 +:+ "." +:+ p1 +:+ "." +:+ Py.decimal n /\
              Z.abs n < str_limit /\
              Py.forallb_str (fun c => negb (Py.eqc c ".")) p0 = true /\
              Py.forallb_str (fun c => negb (Py.eqc c ".")) p1 = true /\
              (p0 = "" \/ exists c r, p0 = String c r /\ Py.is_space c = false))
    as Hfirst.
  { intros s Hs.
    assert (exists p0 p1 n,
              "0.1.1" = p0 +:+ "." +:+ p1 +:+ "." +:+ Py.decimal n /\
              Z.abs n < str_limit /\
              Py.forallb_str (fun c => negb (Py.eqc c ".")) p0 = true /\
              Py.forallb_str (fun c => negb (Py.eqc c ".")) p1 = true /\
              (p0 = "" \/ exists c r, p0 = String c r /\ Py.is_space c = false))
      as Hfallback.
    { exists "0", "1", 1. split; [done |]. split; [simpl; lia |].
      repeat split; try done. right. by exists "0"%char, "". }
    unfold bumped.
    destruct (Py.split "." s) as [|q0 [|q1 [|q2 rest]]] eqn:E;
      cbn [lookup list_lookup mbind option_bind]; try exact Hfallback.
    destruct (Py.int_of_str q2) as [n|]; cbn [mbind option_bind];
      [|exact Hfallback].
    rewrite str_of_int_spec.
    destruct (Z.ltb_spec (Z.abs (n + 1)) str_limit) as [Hlt | Hge];
      cbn [mbind option_bind]; [|exact Hfallback].
    exists q0, q1, (n + 1). split; [done |]. split; [done |].
    split; [apply (split_parts_no_sep "." s); rewrite E; by constructor |].
    split; [apply (split_parts_no_sep "." s); rewrite E; by do 2 constructor |].
    destruct (split_head _ _ _ _ E) as [-> | (c & r & r' & -> & ->)]; [by left |].
    right. exists c, r. split; [done |].
    destruct Hs as [Hs | (c' & r'' & [= <- <-] & Hc)]; [discriminate | done]. }
  assert (forall text, Py.strip text = "" \/
            exists c r, Py.strip text = String c r /\ Py.is_space c = false) as Hstripped.
  { intros text. destruct (Py.strip text) as [|c r] eqn:E; [by left |].
    right. exists c, r. split; [done |]. by apply (strip_by_head _ text c r). }
  assert (exists p0 p1 n,
            _increment_version version_file
            = Some (p0 +:+ "." +:+ p1 +:+ "." +:+ Py.decimal n) /\
            Z.abs n < str_limit /\
            Py.forallb_str (fun c => negb (Py.eqc c ".")) p0 = true /\
            Py.forallb_str (fun c => negb (Py.eqc c ".")) p1 = true /\
            (p0 = "" \/ exists c r, p0 = String c r /\ Py.is_space c = false))
    as (p0 & p1 & n & Hv & Hn & H0 & H1 & Hh).
  { destruct version_file as [text|]; unfold _increment_version.
    - destruct (Hfirst (Py.strip text) (Hstripped text))
        as (p0 & p1 & n & -> & ?); eauto 10.
    - destruct (Hfirst "0.1.0") as (p0 & p1 & n & -> & ?);
        [right; by exists "0"%char, ".1.0" | eauto 10]. }
  exists p0, p1, n. split; [lia |]. intros k. split.
  - intros Hk. simpl repeated_runs. rewrite Hv. apply Hiter; (done || lia).
  - intros Hk. rewrite repeated_runs_last.
    destruct k as [|k]; [simpl in Hk; lia |].
    simpl repeated_runs. rewrite Hv.
    rewrite Hiter by (done || lia).
    rewrite increment_version_rerun by (done || lia).
    by destruct (Z.ltb_spec (n + Z.of_nat k + 1) str_limit); [lia |].
Qed.

End VersionRuns.

(** ** The override file, further *)

Section Loader.

Implicit Types (config : gmap string cfgval).




Lemma config_line_ignored config (line : string) :
  ignored_line line = true -> config_line config line = config.
Proof.
  unfold ignored_line, config_line.
  destruct (Py.is_empty (Py.strip line)); [done |].
  destruct (Py.startswith "#" (Py.strip line)); [done |].
  destruct (Py.contains ":" (Py.strip line)); [discriminate | done].
Qed.

(** [_load_config]: blank lines, comment lines and lines without a
    colon can be added to the file or taken out of it anywhere without
    changing the loaded configuration. *)
Theorem load_config_ignored_lines (before extra after : list string) :
  Forall (fun line => ignored_line line = true) extra ->
  _load_config (Lines (before ++ extra ++ after)) = _load_config (Lines (before ++ after)).
Proof.
  intros He. unfold _load_config. rewrite !fold_left_app. f_equal.
  generalize (fold_left config_line before ∅). 
  induction He as [|line extra Hl _ IH]; intros config; simpl; [done |].
  by rewrite config_line_ignored.
Qed.

Lemma load_config_ignored_lines_witness :
  _load_config (Lines (["region: us-east-1"] ++ ["# a comment"; ""; "no colon here"]
                       ++ ["ami: latest"]))
  = _load_config (Lines (["region: us-east-1"] ++ ["ami: latest"])).
Proof. apply load_config_ignored_lines. repeat constructor. Defined.






Lemma contains_app_r (p a s : string) :
  Py.contains p s = true -> Py.contains p (a +:+ s) = true.
Proof.
  intros Hs. induction a as [|c a IH]; [done |].
  rewrite app_cons. simpl. by rewrite IH, orb_true_r.
Qed.

Lemma startswith_app (p s : string) : Py.startswith p (p +:+ s) = true.
Proof.
  induction p as [|c p IH]; [done |]. rewrite app_cons. simpl.
  rewrite IH. unfold Py.eqc. by rewrite bool_decide_eq_true_2.
Qed.

Lemma contains_mid (p a b : string) : Py.contains p (a +:+ p +:+ b) = true.
Proof.
  apply contains_app_r. destruct (p +:+ b) eqn:E; simpl;
    rewrite <- ?E, startswith_app; done.
Qed.

















End Loader.

(** ** The facets, further *)

Section Facets.

Ltac map_lookup :=
  repeat first
    [ rewrite lookup_insert_eq
    | rewrite lookup_insert_ne by discriminate
    | rewrite lookup_singleton_eq
    | rewrite lookup_singleton_ne by discriminate
    | rewrite lookup_empty ].

Lemma map_chars_app (f : ascii -> ascii) (a b : string) :
  Py.map_chars f (a +:+ b) = Py.map_chars f a +:+ Py.map_chars f b.
Proof.
  induction a as [|c a IH]; [done |]. rewrite app_cons. simpl. by rewrite IH.
Qed.

(** [_detect_python_framework] looks at [main.py] only: without it the
    framework is unknown whatever [requirements.txt] lists, and with
    it a mention of FastAPI in any letter case, anywhere in the file,
    decides for [fastapi], before Flask and Django are looked for. *)
Theorem backend_framework (t : backend_tree) :
  backend_exists t = true ->
  match backend_main_py t with
  | None =>
      is_Some (backend_requirements_txt t) ->
      _analyze_backend t !! "framework" = Some (PyStr "unknown")
  | Some content =>
      forall a m b : string,
        content = a +:+ m +:+ b -> Py.lower m = "fastapi" ->
        _analyze_backend t !! "framework" = Some (PyStr "fastapi")
  end.
Proof.
  intros He. unfold _analyze_backend. rewrite He. cbn [negb].
  destruct (backend_main_py t) as [content|].
  - intros a m b -> Hm. rewrite orb_true_r.
    unfold _detect_python_framework, Py.lower.
    rewrite !map_chars_app. fold (Py.lower m). rewrite Hm, contains_mid.
    destruct (backend_requirements_txt t); by map_lookup.
  - intros [text ->]. cbn. by map_lookup.
Qed.

Lemma backend_framework_witness :
  _analyze_backend
    {| backend_exists := true; backend_path := "backend";
       backend_requirements_txt := None;
       backend_main_py := Some ("from flask import Flask; # was " +:+ "FastAPI" +:+ " once");
       backend_py_files := [] |} !! "framework"
  = Some (PyStr "fastapi").
Proof.
  exact (backend_framework
           {| backend_exists := true; backend_path := "backend";
              backend_requirements_txt := None;
              backend_main_py :=
                Some ("from flask import Flask; # was " +:+ "FastAPI" +:+ " once");
              backend_py_files := [] |} eq_refl
           "from flask import Flask; # was " "FastAPI" " once" eq_refl eq_refl).
Defined.

Lemma rstrip_by_idem (p : ascii -> bool) (s : string) :
  Py.rstrip_by p (Py.rstrip_by p s) = Py.rstrip_by p s.
Proof.
  induction s as [|c s IH]; [done |]. simpl.
  destruct (p c && Py.is_empty (Py.rstrip_by p s)) eqn:E; [done |].
  simpl. by rewrite IH, E.
Qed.

Lemma lstrip_by_head (p : ascii -> bool) (s : string) :
  Py.lstrip_by p s = "" \/
  exists c r, Py.lstrip_by p s = String c r /\ p c = false.
Proof.
  induction s as [|c s IH]; simpl; [by left |].
  destruct (p c) eqn:Hc; [done |]. right. eauto.
Qed.

Lemma strip_by_idem (p : ascii -> bool) (s : string) :
  Py.strip_by p (Py.strip_by p s) = Py.strip_by p s.
Proof.
  unfold Py.strip_by.
  destruct (lstrip_by_head p s) as [-> | (c & r & -> & Hc)]; [done |].
  simpl Py.rstrip_by. rewrite Hc. cbn [andb]. simpl Py.lstrip_by. rewrite Hc.
  simpl. by rewrite Hc, rstrip_by_idem.
Qed.

Lemma forallb_lstrip_by (q p : ascii -> bool) (s : string) :
  Py.forallb_str q s = true -> Py.forallb_str q (Py.lstrip_by p s) = true.
Proof.
  induction s as [|c s IH]; simpl; [done |].
  intros [Hc Hs]%andb_prop. destruct (p c); [by apply IH |].
  simpl. by rewrite Hc, Hs.
Qed.

Lemma forallb_rstrip_by (q p : ascii -> bool) (s : string) :
  Py.forallb_str q s = true -> Py.forallb_str q (Py.rstrip_by p s) = true.
Proof.
  induction s as [|c s IH]; simpl; [done |].
  intros [Hc Hs]%andb_prop. destruct (_ && _); [done |].
  simpl. by rewrite Hc, IH.
Qed.

(** [_analyze_backend]: the entries of [dependencies] are the lines of
    [requirements.txt] that are not blank, each without the white
    space around it. *)
Theorem requirement_lines_entries (text x : string) :
  x ∈ requirement_lines text ->
  Py.is_empty x = false /\ Py.strip x = x /\
  Py.forallb_str (fun c => negb (Py.eqc c newline)) x = true.
Proof.
  unfold requirement_lines. intros (y & -> & Hy)%list_elem_of_fmap.
  apply list_elem_of_In, filter_In in Hy as [Hy%list_elem_of_In Hne%negb_true_iff].
  split; [done |]. split; [apply strip_by_idem |].
  unfold Py.strip, Py.strip_by.
  apply forallb_rstrip_by, forallb_lstrip_by.
  by apply (split_parts_no_sep newline (Py.strip text)).
Qed.

Lemma requirement_lines_entries_witness :
  Py.is_empty "uvicorn" = false /\ Py.strip "uvicorn" = "uvicorn" /\
  Py.forallb_str (fun c => negb (Py.eqc c newline)) "uvicorn" = true.
Proof.
  apply (requirement_lines_entries
           ("fastapi==0.100.0" +:+ String newline (" uvicorn " +:+ String newline ""))).
  vm_compute. right. left.
Defined.




(** [_analyze_frontend]: the facet names the [node] framework without
    carrying the install command exactly when [package.json] parses to
    something other than an object; in every other case a facet that
    names a framework carries the four commands. *)
Theorem frontend_facet_half_written (t : frontend_tree) :
  (_analyze_frontend t !! "framework" = Some (PyStr "node") /\
   _analyze_frontend t !! "install_command" = None
   <-> manifest_not_object t = true) /\
  (manifest_not_object t = false ->
   is_Some (_analyze_frontend t !! "framework") ->
   Forall (fun key => is_Some (_analyze_frontend t !! key))
     ["install_command"; "lint_command"; "test_command"; "build_command"]).
Proof.
  unfold _analyze_frontend, manifest_not_object.
  destruct (frontend_exists t); cbn [negb andb].
  - destruct (frontend_package_json t) as [| |[| | | | | |d]];
      try destruct (frontend_index_html t); map_lookup;
      (split; [split; [by intros [? ?] | done] |]);
      intros ? Hf; try discriminate; try (by destruct Hf);
      repeat constructor; map_lookup; by eexists.
  - map_lookup. split; [split; [by intros [? ?] | done] |].
    intros _ Hf. by destruct Hf.
Qed.

Lemma frontend_facet_half_written_witness :
  Forall (fun key =>
            is_Some (_analyze_frontend
                       {| frontend_exists := true; frontend_path := "frontend";
                          frontend_package_json := PkgMissing;
                          frontend_index_html := true;
                          frontend_js_files := [] |} !! key))
    ["install_command"; "lint_command"; "test_command"; "build_command"].
Proof.
  apply (proj2 (frontend_facet_half_written
                  {| frontend_exists := true; frontend_path := "frontend";
                     frontend_package_json := PkgMissing;
                     frontend_index_html := true;
                     frontend_js_files := [] |})).
  - reflexivity.
  - vm_compute. eauto.
Defined.

End Facets.

(** ** The QR service, further *)

Section QrFormats.






Lemma format_url (data : string) :
  format_data_for_qr data "url" =
  let data' :=
    if negb (Py.startswith "http://" data || Py.startswith "https://" data)
    then "https://" +:+ data else data in
  if negb (Re.match_anchored url_re data')
  then Raise (HTTPException 400 "Invalid URL format")
  else Ok data'.
Proof. reflexivity. Qed.

(** [format_data_for_qr] for [url]: an accepted address comes back
    with a scheme, is the input itself or the input behind
    [https://], and is accepted unchanged when formatted again. *)
Theorem url_format_idempotent (data out : string) :
  format_data_for_qr data "url" = Ok out ->
  (Py.startswith "http://" out = true \/ Py.startswith "https://" out = true) /\
  (out = data \/ out = "https://" +:+ data) /\
  format_data_for_qr out "url" = Ok out.
Proof.
  rewrite !format_url. cbv zeta.
  destruct (Py.startswith "http://" data || Py.startswith "https://" data) eqn:Hs;
    cbn [negb].
  - destruct (Re.match_anchored url_re data) eqn:Hm; cbn [negb]; [|discriminate].
    intros [= <-]. rewrite Hs. cbn [negb]. rewrite Hm. cbn [negb].
    split; [by apply orb_prop in Hs |]. split; [by left | done].
  - destruct (Re.match_anchored url_re ("https://" +:+ data)) eqn:Hm; cbn [negb];
      [|discriminate].
    intros [= <-].
    assert (Py.startswith "https://" ("https://" +:+ data) = true) as Hp
      by reflexivity.
    rewrite Hp, orb_true_r. cbn [negb]. rewrite Hm. cbn [negb].
    split; [by right |]. split; [by right | done].
Qed.

Lemma url_format_idempotent_witness :
  format_data_for_qr "https://example.com" "url" = Ok "https://example.com".
Proof.
  apply (url_format_idempotent "example.com" "https://example.com").
  vm_compute. reflexivity.
Defined.




Lemma app_eq_empty (s t : string) : s +:+ t = "" -> s = "" /\ t = "".
Proof. destruct s; [by rewrite app_empty | rewrite app_cons; discriminate]. Qed.

Lemma nullable_matches (r : Re.re) : Re.nullable r = true <-> matches r "".
Proof.
  induction r as [| |p|a IHa b IHb|a IHa b IHb|a IHa]; simpl.
  - split; [discriminate | inversion 1].
  - split; [constructor | done].
  - split; [discriminate | inversion 1].
  - rewrite andb_true_iff, IHa, IHb. split.
    + intros [Ha Hb]. by apply (matches_cat a b "" "").
    + inversion 1 as [| |? ? s t Hs Ht Heq| | | |]; subst.
      match goal with H : _ +:+ _ = "" |- _ => apply app_eq_empty in H as [-> ->] end.
      done.
  - rewrite orb_true_iff, IHa, IHb. split.
    + intros [H | H]; [by apply matches_alt_l | by apply matches_alt_r].
    + inversion 1; subst; auto.
  - split; [constructor | done].
Qed.

Lemma matches_star_cons (a : Re.re) (c : ascii) (s : string) :
  matches (Re.Star a) (String c s) ->
  exists s1 s2, s = s1 +:+ s2 /\ matches a (String c s1) /\ matches (Re.Star a) s2.
Proof.
  intros H. remember (Re.Star a) as r eqn:Hr. remember (String c s) as w eqn:Hw.
  revert s Hw. induction H as [| | | | | |a' u t Hu _ Ht IHt]; intros s' Hw;
    try discriminate.
  injection Hr as ->.
  destruct u as [|x u].
  - rewrite app_empty in Hw. by apply IHt.
  - rewrite app_cons in Hw. injection Hw as -> <-. eauto.
Qed.

Lemma deriv_matches (r : Re.re) (c : ascii) (s : string) :
  matches (Re.deriv c r) s <-> matches r (String c s).
Proof.
  revert s. induction r as [| |p|a IHa b IHb|a IHa b IHb|a IHa]; intros s; simpl.
  - split; inversion 1.
  - split; inversion 1.
  - destruct (p c) eqn:Hp.
    + split.
      * inversion 1; subst. by constructor.
      * inversion 1; subst. constructor.
    + split; [inversion 1 |]. inversion 1; subst. congruence.
  - assert (matches (Re.Cat (Re.deriv c a) b) s \/
            (matches a "" /\ matches (Re.deriv c b) s) <->
            matches (Re.Cat a b) (String c s)) as Hcat.
    { split.
      - intros [H | [Ha Hb]].
        + inversion H as [| |? ? u t Hu Ht| | | |]; subst.
          apply IHa in Hu. by apply (matches_cat a b (String c u) t).
        + apply IHb in Hb. by apply (matches_cat a b "" (String c s)).
      - inversion 1 as [| |? ? u t Hu Ht Heq| | | |]; subst.
        destruct u as [|x u].
        + rewrite app_empty in *. subst t. right. split; [done | by apply IHb].
        + rewrite app_cons in *.
          match goal with H : String _ _ = String _ _ |- _ => injection H as -> <- end.
          left. constructor; [by apply IHa | done]. }
    rewrite <- Hcat. destruct (Re.nullable a) eqn:Hn.
    + apply nullable_matches in Hn. split.
      * inversion 1; subst; [by left | right; by split].
      * intros [H | [_ H]]; [by apply matches_alt_l | by apply matches_alt_r].
    + split; [by left |]. intros [H | [Ha _]]; [done |].
      apply nullable_matches in Ha. congruence.
  - split.
    + inversion 1; subst; [apply matches_alt_l | apply matches_alt_r]; by apply IHa || apply IHb.
    + inversion 1; subst; [apply matches_alt_l | apply matches_alt_r]; by apply IHa || apply IHb.
  - split.
    + inversion 1 as [| |? ? u t Hu Ht| | | |]; subst.
      apply IHa in Hu. by apply (matches_star_app a (String c u) t).
    + intros (s1 & s2 & -> & H1 & H2)%matches_star_cons.
      constructor; [by apply IHa | done].
Qed.

(** The matcher decides the language. *)
Lemma fullmatch_matches (r : Re.re) (s : string) :
  Re.fullmatch r s = true <-> matches r s.
Proof.
  revert r. induction s as [|c s IH]; intros r; simpl.
  - apply nullable_matches.
  - rewrite IH. apply deriv_matches.
Qed.

Lemma matches_cat_iff (a b : Re.re) (w : string) :
  matches (Re.Cat a b) w <->
  exists s t, w = s +:+ t /\ matches a s /\ matches b t.
Proof.
  split.
  - inversion 1; subst. eauto.
  - intros (s & t & -> & Hs & Ht). by constructor.
Qed.

Lemma matches_chr_iff (p : ascii -> bool) (w : string) :
  matches (Re.Chr p) w <-> exists c, w = String c "" /\ p c = true.
Proof.
  split.
  - inversion 1; subst. eauto.
  - intros (c & -> & Hc). by constructor.
Qed.

Lemma matches_lit (t w : string) : matches (Re.lit t) w <-> w = t.
Proof.
  revert w. induction t as [|c t IH]; intros w; simpl.
  - split; [by inversion 1 | intros ->; constructor].
  - rewrite matches_cat_iff. split.
    + intros (s & u & -> & Hs & Hu). apply matches_chr_iff in Hs as (x & -> & Hx).
      apply IH in Hu as ->. unfold Py.eqc in Hx.
      apply bool_decide_eq_true_1 in Hx as ->. reflexivity.
    + intros ->. exists (String c ""), t. split; [reflexivity |].
      split; [|by apply IH]. constructor. unfold Py.eqc.
      by apply bool_decide_eq_true_2.
Qed.

Lemma matches_star_chr (p : ascii -> bool) (w : string) :
  matches (Re.Star (Re.Chr p)) w <-> Py.forallb_str p w = true.
Proof.
  split.
  - intros H. remember (Re.Star (Re.Chr p)) as r eqn:Hr.
    induction H as [| | | | | |a s t Hs _ Ht IH]; try discriminate; [done |].
    injection Hr as ->. inversion Hs; subst.
    rewrite app_cons, app_empty. simpl.
    apply andb_true_intro. split; [done | by apply IH].
  - induction w as [|c w IH]; simpl; [constructor |].
    intros [Hc Hw]%andb_prop.
    apply (matches_star_app (Re.Chr p) (String c "") w); [by constructor | by apply IH].
Qed.

Lemma matches_plus_chr (p : ascii -> bool) (w : string) :
  matches (Re.plus (Re.Chr p)) w <->
  Py.is_empty w = false /\ Py.forallb_str p w = true.
Proof.
  unfold Re.plus. rewrite matches_cat_iff. split.
  - intros (s & t & -> & (c & -> & Hc)%matches_chr_iff & Ht%matches_star_chr).
    rewrite app_cons, app_empty. simpl. by rewrite Hc, Ht.
  - destruct w as [|c w]; simpl; intros [He Hw]; [discriminate |].
    apply andb_prop in Hw as [Hc Hw].
    exists (String c ""), w. split; [reflexivity |].
    split; [by constructor | by apply matches_star_chr].
Qed.

Lemma match_anchored_iff (r : Re.re) (w : string) :
  Re.match_anchored r w = true <->
  exists s tail, w = s +:+ tail /\ matches r s /\
                 (tail = "" \/ tail = String newline "").
Proof.
  unfold Re.match_anchored. rewrite orb_true_iff, !fullmatch_matches.
  rewrite matches_cat_iff. split.
  - intros [H | (s & t & -> & Hs & (c & -> & Hc)%matches_chr_iff)].
    + exists w, "". rewrite append_nil_r. auto.
    + exists s, (String newline ""). unfold Py.eqc in Hc.
      apply bool_decide_eq_true_1 in Hc as <-. auto.
  - intros (s & tail & -> & Hs & [-> | ->]).
    + left. by rewrite append_nil_r.
    + right. exists s, (String newline ""). split; [done |]. split; [done |].
      constructor. unfold Py.eqc. by apply bool_decide_eq_true_2.
Qed.

Lemma format_email (data : string) :
  format_data_for_qr data "email" =
  if negb (Re.match_anchored email_re data)
  then Raise (HTTPException 400 "Invalid email format")
  else Ok ("mailto:" +:+ data).
Proof. reflexivity. Qed.

Lemma len_app (a b : string) : Py.len (a +:+ b) = Py.len a + Py.len b.
Proof.
  unfold Py.len. induction a as [|c a IH]; [by rewrite app_empty |].
  rewrite app_cons. cbn [String.length]. rewrite !Nat2Z.inj_succ. lia.
Qed.

(** [format_data_for_qr] for [email]: the address is accepted, and
    returned behind [mailto:], exactly when it reads
    [local@domain.tld] with a non-empty local part of letters, digits
    and [._%+-], a non-empty domain of letters, digits, dots and
    hyphens, and at least two letters after the last dot, one newline
    being let through at the very end; every other input is refused
    with status 400. *)
Theorem email_accepted_shape (data : string) :
  (format_data_for_qr data "email" = Ok ("mailto:" +:+ data) <->
   exists local domain tld tail : string,
     data = local +:+ "@" +:+ domain +:+ "." +:+ tld +:+ tail /\
     (tail = "" \/ tail = String newline "") /\
     Py.is_empty local = false /\
     Py.forallb_str (fun c => Py.is_alnum c || one_of "._%+-" c) local = true /\
     Py.is_empty domain = false /\
     Py.forallb_str (fun c => Py.is_alnum c || one_of ".-" c) domain = true /\
     2 <= Py.len tld /\ Py.forallb_str Py.is_alpha tld = true) /\
  (format_data_for_qr data "email" = Ok ("mailto:" +:+ data) \/
   format_data_for_qr data "email" = Raise (HTTPException 400 "Invalid email format")).
Proof.
  rewrite format_email. split; [|destruct (Re.match_anchored _ _); auto].
  assert ((if negb (Re.match_anchored email_re data)
           then Raise (HTTPException 400 "Invalid email format")
           else Ok ("mailto:" +:+ data)) = Ok ("mailto:" +:+ data)
          <-> Re.match_anchored email_re data = true) as ->.
  { destruct (Re.match_anchored email_re data); simpl; split; done. }
  rewrite match_anchored_iff. unfold email_re.
  split.
  - intros (s & tail & -> & Hs & Htail).
    apply matches_cat_iff in Hs as (local & s1 & -> & Hl & Hs).
    apply matches_cat_iff in Hs as (at_ & s2 & -> & Hat & Hs).
    apply matches_cat_iff in Hs as (domain & s3 & -> & Hd & Hs).
    apply matches_cat_iff in Hs as (dot & tld & -> & Hdot & Hs).
    apply matches_lit in Hat as ->. apply matches_lit in Hdot as ->.
    apply matches_plus_chr in Hl as [Hl1 Hl2].
    apply matches_plus_chr in Hd as [Hd1 Hd2].
    apply matches_cat_iff in Hs as (t1 & t2 & -> & (c & -> & Hc)%matches_chr_iff & Ht2).
    apply matches_plus_chr in Ht2 as [Ht1 Ht2].
    exists local, domain, (String c "" +:+ t2), tail.
    split; [by rewrite !append_assoc |]. split; [done |].
    repeat split; try done.
    + rewrite len_app. destruct t2; [discriminate |].
      unfold Py.len. cbn [String.length]. lia.
    + rewrite app_cons, app_empty. simpl. by rewrite Hc, Ht2.
  - intros (local & domain & tld & tail & -> & Htail & Hl1 & Hl2 & Hd1 & Hd2 & Hlen & Ht).
    exists (local +:+ "@" +:+ domain +:+ "." +:+ tld), tail.
    split; [by rewrite !append_assoc |]. split; [|done].
    constructor; [by apply matches_plus_chr |].
    constructor; [by apply matches_lit |].
    constructor; [by apply matches_plus_chr |].
    constructor; [by apply matches_lit |].
    destruct tld as [|c [|c' tld]];
      [unfold Py.len in Hlen; simpl in Hlen; lia
      |unfold Py.len in Hlen; simpl in Hlen; lia |].
    simpl in Ht. apply andb_prop in Ht as [Hc Ht].
    apply (matches_cat _ _ (String c "") (String c' tld)); [by constructor |].
    apply matches_plus_chr. split; [done | exact Ht].
Qed.

Lemma email_accepted_shape_witness :
  format_data_for_qr "dev@example.io" "email" = Ok "mailto:dev@example.io".
Proof.
  apply (proj1 (email_accepted_shape "dev@example.io")).
  exists "dev", "example", "io", "".
  split; [reflexivity |]. split; [by left |].
  repeat split; try reflexivity; try (unfold Py.len; simpl; lia).
Defined.

End QrFormats.

(** ** The run *)

Section Run.

Implicit Types (config : gmap string cfgval) (analysis : gmap string pyval).

Lemma getitem_annotated analysis (v : pyval) (key : string) :
  key <> "ai_recommendations" ->
  getitem (<["ai_recommendations" := v]> analysis) key = getitem analysis key.
Proof. intros Hk. unfold getitem. by rewrite lookup_insert_ne. Qed.

(** No generation step reads the advisory annotation. *)
Lemma generation_steps_annotated config analysis (v : pyval) now files :
  generation_steps config (<["ai_recommendations" := v]> analysis) now files
  = generation_steps config analysis now files.
Proof.
  unfold generation_steps, _generate_github_workflow, ci_cd_workflow,
    _create_validation_job, _create_test_job, backend_steps, frontend_steps,
    _ensure_terraform_infrastructure, _create_terraform_main, resolved_ports,
    _ensure_docker_configuration, _update_readme.
  by rewrite !getitem_annotated.
Qed.

(** Enrichment raises, or hands back the record, or the record with
    the annotation. *)
Lemma enhance_cases (openai_token : option string) reply analysis (strict : bool) :
  (exists e, _ai_enhance_analysis openai_token reply analysis strict = Raise e
             /\ has_token openai_token = true /\ strict = true)
  \/ (exists e, _ai_enhance_analysis openai_token reply analysis strict = Raise e
             /\ has_token openai_token = false /\ strict = true)
  \/ _ai_enhance_analysis openai_token reply analysis strict = Ok analysis
  \/ exists v, _ai_enhance_analysis openai_token reply analysis strict
               = Ok (<["ai_recommendations" := v]> analysis).
Proof.
  unfold _ai_enhance_analysis.
  destruct (has_token openai_token); cbn [negb].
  - destruct (analysis_context analysis) as [c|e]; cbn [mbind result_bind].
    + destruct (_call_openai_api reply strict) as [r|e]; cbn [mbind result_bind].
      * destruct (truthy r); [eauto 10 |]. destruct strict; eauto 10.
      * destruct strict; eauto 10.
    + destruct strict; eauto 10.
  - destruct strict; eauto 10.
Qed.

Ltac map_lookup :=
  repeat first
    [ rewrite lookup_insert_eq
    | rewrite lookup_insert_ne by discriminate
    | rewrite lookup_singleton_eq
    | rewrite lookup_singleton_ne by discriminate
    | rewrite lookup_empty ].

Lemma workflow_on_analysis config (t : project_tree) :
  if manifest_not_object (tree_frontend t)
  then ci_cd_workflow config (analyze_project t) = Raise (KeyError "install_command")
  else if is_list (config !! "email_notification")
  then ci_cd_workflow config (analyze_project t) = Raise AttributeError
  else exists w, ci_cd_workflow config (analyze_project t) = Ok w.
Proof.
  unfold ci_cd_workflow.
  rewrite validation_job_on_analysis, test_job_on_analysis.
  cbn [mbind result_bind].
  destruct (manifest_not_object (tree_frontend t)); [reflexivity |].
  cbn [mbind result_bind]. unfold _create_deploy_job, cfg_get.
  destruct (config !! "email_notification") as [[s|l]|]; cbn; eauto.
Qed.

Lemma resolved_ports_on_analysis config (t : project_tree) :
  exists ports, resolved_ports config (analyze_project t) = Ok ports.
Proof.
  unfold resolved_ports, getitem.
  destruct (analyze_project_facets t) as (-> & -> & _).
  cbn [mbind result_bind as_dict].
  destruct (int_of _); [destruct (int_of _) |]; eauto.
Qed.

Lemma ensure_terraform_raised config analysis (ports : Z * Z)
    (terraform : option (gmap string artifact)) :
  resolved_ports config analysis = Ok ports ->
  (_ensure_terraform_infrastructure config analysis terraform).2 = None
  <-> bundle_present terraform
      || negb (is_list (config !! "pipeline_name") || is_list (config !! "ami")) = true.
Proof.
  intros Hp. unfold _ensure_terraform_infrastructure, bundle_present.
  destruct (_ && _ && _); [done |]. cbn [orb].
  unfold _create_terraform_main. rewrite Hp. cbn [mbind result_bind].
  destruct (docs_raise_together config) as [Hraise Hok].
  destruct (is_list (config !! "pipeline_name") || is_list (config !! "ami")).
  - unfold _create_terraform_variables. rewrite (Hraise eq_refl). done.
  - destruct (Hok eq_refl) as (v & tv & Hv & Ht).
    unfold _create_terraform_variables, _create_terraform_outputs,
      _create_terraform_tfvars.
    rewrite Hv. cbn [mbind result_bind fmap result_fmap]. rewrite Ht. done.
Qed.

Lemma docker_on_analysis (t : project_tree) :
  _ensure_docker_configuration (analyze_project t) = Ok tt.
Proof.
  unfold _ensure_docker_configuration, getitem.
  destruct (analyze_project_facets t) as (_ & _ & _ & -> & _).
  cbn [mbind result_bind subscript]. unfold getitem, _analyze_docker.
  by map_lookup.
Qed.

Lemma readme_on_analysis (t : project_tree) (stamp : string)
    (version_file : option string) :
  exists doc, _update_readme (analyze_project t) stamp version_file = Ok (Readme doc)
    /\ readme_last_updated doc = stamp
    /\ readme_version doc = _get_current_version version_file.
Proof.
  unfold _update_readme, getitem.
  destruct (analyze_project_facets t) as (-> & -> & _).
  cbn [mbind result_bind as_dict]. eauto.
Qed.

(** The generation steps on the record of the analyzer go through
    exactly under [run_succeeds]. *)
Lemma generation_steps_raised config (t : project_tree) now files :
  (generation_steps config (analyze_project t) now files).2 = None
  <-> run_succeeds config t files = true.
Proof.
  unfold run_succeeds, generation_steps, _generate_github_workflow.
  pose proof (workflow_on_analysis config t) as Hw.
  destruct (manifest_not_object (tree_frontend t)); [by rewrite Hw |].
  destruct (is_list (config !! "email_notification")); [by rewrite Hw |].
  destruct Hw as [w ->]. cbn [negb andb files_terraform files_workflows files_version].
  destruct (resolved_ports_on_analysis config t) as [ports Hp].
  pose proof (ensure_terraform_raised config _ ports (files_terraform files) Hp) as Ht.
  destruct (_ensure_terraform_infrastructure _ _ _) as [tf [e|]];
    cbn [snd] in Ht.
  - cbn [snd]. rewrite <- Ht. done.
  - rewrite docker_on_analysis.
    destruct (readme_on_analysis t (clock_readme now) (files_version files))
      as (doc & Hd & _).
    cbn [files_version]. rewrite Hd. cbn [snd]. by rewrite <- Ht.
Qed.

(** What the generation steps leave of the version file and of the
    README. *)
Lemma generation_steps_report config analysis now files :
  let out := generation_steps config analysis now files in
  match out.2 with
  | None =>
      files_version out.1 = _increment_version (files_version files) /\
      exists doc, files_readme out.1 = Some (Readme doc) /\
        readme_version doc = _get_current_version (files_version files) /\
        readme_last_updated doc = clock_readme now
  | Some _ =>
      files_version out.1 = files_version files /\
      files_readme out.1 = files_readme files
  end.
Proof.
  unfold generation_steps.
  destruct (_generate_github_workflow _ _ _) as [wf [e|]]; [done |].
  cbn [files_terraform files_workflows files_version files_readme].
  destruct (_ensure_terraform_infrastructure _ _ _) as [tf [e|]]; [done |].
  destruct (_ensure_docker_configuration _) as [[]|e]; [|done].
  cbn [files_terraform files_workflows files_version files_readme].
  unfold _update_readme.
  destruct (getitem analysis "frontend") as [f|e]; [|done].
  cbn [mbind result_bind].
  destruct (as_dict f) as [fd|e]; [|done]. cbn [mbind result_bind].
  destruct (getitem analysis "backend") as [b|e]; [|done].
  cbn [mbind result_bind].
  destruct (as_dict b) as [bd|e]; [|done]. cbn [mbind result_bind].
  cbn. eauto 10.
Qed.

(** A run is the generation steps on the record of the analyzer,
    unless strict enrichment raises. *)
Lemma pipeline_unfold (openai_token : option string) reply config
    (t : project_tree) now files :
  generate_pipeline openai_token reply config t now files =
  match _ai_enhance_analysis openai_token reply (analyze_project t)
          (has_token openai_token) with
  | Raise e => (files, Raise e)
  | Ok _ => ((generation_steps config (analyze_project t) now files).1,
             Ok (run_succeeds config t files))
  end.
Proof.
  unfold generate_pipeline.
  pose proof (generation_steps_raised config t now files) as Hr.
  destruct (enhance_cases openai_token reply (analyze_project t)
              (has_token openai_token))
    as [(e & He & _) | [(e & He & _) | [He | [v He]]]];
    rewrite He; try done; rewrite ?generation_steps_annotated;
    destruct (generation_steps _ _ _ _) as [out [e|]]; cbn [fst snd] in *;
    f_equal; f_equal.
  - destruct (run_succeeds config t files); [|done].
    discriminate (proj2 Hr eq_refl).
  - symmetry. by apply Hr.
  - destruct (run_succeeds config t files); [|done].
    discriminate (proj2 Hr eq_refl).
  - symmetry. by apply Hr.
Qed.

(** [generate_pipeline]: enrichment can end a run but never changes
    what it writes or answers.  A run either lets the exception of
    strict enrichment through, with every file as it was, or writes
    exactly what the generation steps write on the record of the
    analyzer and answers [run_succeeds]. *)
Theorem pipeline_answer (openai_token : option string) reply config
    (t : project_tree) now files :
  let run := generate_pipeline openai_token reply config t now files in
  match run.2 with
  | Raise e =>
      has_token openai_token = true /\ run.1 = files /\
      _ai_enhance_analysis openai_token reply (analyze_project t) true = Raise e
  | Ok answer =>
      answer = run_succeeds config t files /\
      run.1 = (generation_steps config (analyze_project t) now files).1
  end.
Proof.
  cbn zeta. rewrite pipeline_unfold.
  destruct (enhance_cases openai_token reply (analyze_project t)
              (has_token openai_token))
    as [(e & He & Ht & _) | [(e & He & Ht & Hs) | [He | [v He]]]];
    rewrite He; cbn [fst snd]; [| congruence | done..].
  rewrite Ht in He. done.
Qed.

(** [generate_pipeline]: a run that answers [True] has bumped
    [VERSION] and written a README that carries the version found
    before the bump; a run that answers [False] or raises has left
    both files as they were. *)
Theorem pipeline_version_and_readme (openai_token : option string) reply config
    (t : project_tree) now files :
  let run := generate_pipeline openai_token reply config t now files in
  match run.2 with
  | Ok true =>
      files_version run.1 = _increment_version (files_version files) /\
      exists doc, files_readme run.1 = Some (Readme doc) /\
        readme_version doc = _get_current_version (files_version files) /\
        readme_last_updated doc = clock_readme now
  | _ =>
      files_version run.1 = files_version files /\
      files_readme run.1 = files_readme files
  end.
Proof.
  unfold generate_pipeline.
  destruct (_ai_enhance_analysis _ _ _ _) as [analysis|e]; [|done].
  pose proof (generation_steps_report config analysis now files) as Hg.
  cbn zeta in Hg.
  destruct (generation_steps _ _ _ _) as [out [e|]]; cbn [fst snd] in *.
  - done.
  - done.
Qed.

(** [generate_pipeline]: a run that answers [False] is not undone.
    When the CI workflow cannot be built, only the workflows directory
    has been made.  Otherwise the failure is the Terraform step's: the
    two workflow files are written, and so are [main.tf] and
    [user_data.sh]. *)
Theorem failed_run_files (openai_token : option string) reply config
    (t : project_tree) now files :
  let run := generate_pipeline openai_token reply config t now files in
  run.2 = Ok false ->
  if manifest_not_object (tree_frontend t) || is_list (config !! "email_notification")
  then files_workflows run.1 = Some (default ∅ (files_workflows files)) /\
       files_terraform run.1 = files_terraform files
  else (exists w,
          files_workflows run.1
          = Some (<["ai-generate-workflow.yml" :=
                      AiGenerate ("ai-pipeline-" +:+ clock_branch now)]>
                    (<["ci-cd.yml" := CiCd w]> (default ∅ (files_workflows files))))) /\
       files_terraform run.1
       = Some (<["user_data.sh" := UserDataSh]>
                 (<["main.tf" := MainTf]> (default ∅ (files_terraform files)))).
Proof.
  cbn zeta. rewrite pipeline_unfold.
  destruct (_ai_enhance_analysis _ _ _ _) as [a|e]; [|done].
  cbn [fst snd]. intros [= Hs]. unfold run_succeeds in Hs.
  unfold generation_steps, _generate_github_workflow.
  pose proof (workflow_on_analysis config t) as Hw.
  destruct (manifest_not_object (tree_frontend t)); [by rewrite Hw |].
  destruct (is_list (config !! "email_notification")); [by rewrite Hw |].
  destruct Hw as [w ->]. cbn [negb andb orb] in *.
  cbn [files_terraform files_workflows files_version files_readme].
  apply orb_false_iff in Hs as [Hb Hl%negb_false_iff].
  destruct (resolved_ports_on_analysis config t) as [ports Hp].
  unfold _ensure_terraform_infrastructure. unfold bundle_present in Hb.
  rewrite Hb. unfold _create_terraform_main. rewrite Hp.
  cbn [mbind result_bind].
  destruct (docs_raise_together config) as [Hraise _].
  unfold _create_terraform_variables. rewrite (Hraise Hl).
  cbn [mbind result_bind fmap result_fmap fst files_workflows files_terraform].
  unfold _generate_ai_workflow_trigger. cbn [default]. eauto.
Qed.

Lemma failed_run_files_witness :
  let config : gmap string cfgval := {["ami" := CList ["ami-1"; "ami-2"]]} in
  let run := generate_pipeline None (PostRaises "") config sample_tree
               sample_clock no_files in
  (exists w,
     files_workflows run.1
     = Some (<["ai-generate-workflow.yml" := AiGenerate "ai-pipeline-20240101-000000"]>
               (<["ci-cd.yml" := CiCd w]> ∅))) /\
  files_terraform run.1
  = Some (<["user_data.sh" := UserDataSh]> (<["main.tf" := MainTf]> ∅)).
Proof.
  intros config run.
  assert (run.2 = Ok false) as Hrun by (vm_compute; reflexivity).
  exact (failed_run_files None (PostRaises "") config sample_tree sample_clock
           no_files Hrun).
Defined.

Lemma strip_blank (a : string) : Py.forallb_str Py.is_space a = true -> Py.strip a = "".
Proof.
  intros Ha. unfold Py.strip, Py.strip_by.
  assert (Py.lstrip_by Py.is_space a = "") as ->; [|done].
  induction a as [|x a IH]; simpl in *; [done |].
  apply andb_prop in Ha as [-> Ha]. by apply IH.
Qed.

(** [main]: a token given on the command line that is only white
    space is taken in preference to the one of the environment and
    then stripped to nothing: the run is a run without a token, which
    asks the advisory service nothing. *)
Theorem main_blank_token (a : string) (env_token : option string)
    (reply reply' : api_reply) request (t : project_tree) now files :
  Py.is_empty a = false -> Py.forallb_str Py.is_space a = true ->
  main_generate (Some a) env_token reply request t now files
  = main_generate None None reply' request t now files.
Proof.
  intros Hne Ha. unfold main_generate, chosen_token, init_token.
  rewrite Hne. cbn iota. rewrite Hne, (strip_blank a Ha).
  rewrite !pipeline_unfold. reflexivity.
Qed.

Lemma main_blank_token_witness :
  main_generate (Some " ") (Some "sk-live") (PostRaises "") NoFile sample_tree
    sample_clock no_files
  = main_generate None None (Response 200 "" (ContentText "advice")) NoFile
      sample_tree sample_clock no_files.
Proof. apply main_blank_token; reflexivity. Defined.


End Run.
